(** * sciunit capabilities: a shallow embedding of [sciunit/capabilities.py]

    The development follows the Python module top to bottom.  Python
    objects live in a store (a class table and a heap of instances), the
    warning channel is an append-only list, and exceptions are an explicit
    outcome.  The two class methods [source_check] and [check] and the
    helper [unimplemented] are transcribed statement by statement. *)

From Stdlib Require Import String Ascii ZArith List Bool.
From stdpp Require Import base option list gmap strings.

Local Open Scope string_scope.
Set Warnings "-register-all".

(** ** Python strings *)

Module PyStr.

(** The double quote and line feed characters, used to spell source text. *)
Definition dquote : ascii := "034"%char.
Definition lf : ascii := "010"%char.

(** [str.isspace] on code points below 256: tab, line feed, vertical
    tab, form feed, carriage return, the four separators 28..31, space,
    next-line (133) and no-break space (160). *)
Definition isspace (c : ascii) : bool :=
  let n := nat_of_ascii c in
  ((9 <=? n)%nat && (n <=? 13)%nat) || ((28 <=? n)%nat && (n <=? 32)%nat)
  || (n =? 133)%nat || (n =? 160)%nat.

Fixpoint lstrip (s : string) : string :=
  match s with
  | EmptyString => EmptyString
  | String c s' => if isspace c then lstrip s' else s
  end.

Fixpoint rstrip (s : string) : string :=
  match s with
  | EmptyString => EmptyString
  | String c s' =>
      match rstrip s' with
      | EmptyString => if isspace c then EmptyString else String c EmptyString
      | r => String c r
      end
  end.

(** [s.strip()] *)
Definition strip (s : string) : string := rstrip (lstrip s).

(** [s[:n]]: the first [n] characters, or all of [s] when it is shorter. *)
Definition slice_to (n : nat) (s : string) : string := substring 0 n s.

(** [''.join(lines)] *)
Definition join (lines : list string) : string :=
  fold_right append EmptyString lines.

(** One line of source text, given as the pieces between its double
    quotes, with its line feed. *)
Fixpoint quoted (pieces : list string) : string :=
  match pieces with
  | [] => EmptyString
  | [p] => p
  | p :: rest => p ++ String dquote (quoted rest)
  end.

Definition line (pieces : list string) : string :=
  quoted pieces ++ String lf EmptyString.

End PyStr.

(** ** Values, classes, instances *)

(** Heap addresses of instances. *)
Definition addr := nat.

(** A Python function object: its qualified name identifies it, and
    [fn_source] is what [inspect.getsourcelines] finds for it ([None] when
    the source cannot be retrieved). *)
Record func := Func {
  fn_qualname : string;
  fn_source : option (list string)
}.

(** What a bound method is bound to. *)
Inductive receiver :=
| OnInstance (a : addr)
| OnClass (name : string).

(** The values the module handles.  A [VDict] is a dict keyed by classes
    (named by their class name), in insertion order. *)
Inductive value :=
| VNone
| VBool (b : bool)
| VInt (n : Z)
| VStr (s : string)
| VDict (d : list (string * value))
| VFunction (f : func)
| VClassMethod (f : func)
| VMethod (f : func) (self : receiver)
| VClass (name : string).

(** A class: the tail of its method resolution order (the class itself is
    always the head), its own namespace [vars(cls)] in definition order,
    and the source of the class statement. *)
Record pyclass := PyClass {
  cls_ancestors : list string;
  cls_vars : list (string * value);
  cls_source : option (list string)
}.

Record pyobject := PyObject {
  obj_class : string;
  obj_dict : gmap string value
}.

(** The three warnings of the module, in the order they appear in it:
    "Inspect cannot get the source, and it is not guaranteed that all
    required methods have been implemented by the model";
    "The model class suppose to but doesn't inherit the Capability class
    required by the Test class ...";
    "The model class suppose to but doesn't implements methods required by
    the Test class ...". *)
Inductive warning :=
| SourceUnavailableWarning
| NotInheritedWarning
| NotImplementedWarning.

Record state := State {
  classes : gmap string pyclass;
  heap : gmap addr pyobject;
  warnings : list warning
}.

(** Modelled from the spec: the error type of [sciunit.errors], which is
    imported and not defined in this module.  The spec gives
    [CapabilityNotImplementedError(model, capability, message)] as a value
    carrying the model, the capability and a message. *)
Inductive exn :=
| OSError
| TypeError
| AttributeError
| CapabilityNotImplementedError
    (model : option addr) (capability : option string) (message : string)
| OtherError (name : string).

Inductive outcome (A : Type) :=
| Ret (a : A)
| Raise (e : exn).
Arguments Ret {A} a.
Arguments Raise {A} e.

(** Computations that may raise. *)
Definition obind {A B} (m : outcome A) (k : A -> outcome B) : outcome B :=
  match m with
  | Ret a => k a
  | Raise e => Raise e
  end.

(** Computations that may raise and may change the state. *)
Definition py (A : Type) : Type := state -> outcome A * state.

Definition ret {A} (a : A) : py A := fun st => (Ret a, st).

Definition bind {A B} (m : py A) (k : A -> py B) : py B :=
  fun st =>
    match m st with
    | (Ret a, st') => k a st'
    | (Raise e, st') => (Raise e, st')
    end.

(** A computation that only reads the state. *)
Definition read {A} (f : state -> outcome A) : py A := fun st => (f st, st).

Declare Scope py_scope.
Delimit Scope py_scope with py.
Notation "'let*' x ':=' m 'in' k" := (obind m (fun x => k))
  (at level 10, x name, m at level 100, k at level 200) : py_scope.
Notation "'let!' x ':=' m 'in' k" := (bind m (fun x => k))
  (at level 10, x name, m at level 100, k at level 200) : py_scope.
Local Open Scope py_scope.

(** ** The parts of the Python runtime the module relies on *)

Definition bare_object : pyobject := PyObject "object" ∅.

Definition object_at (st : state) (a : addr) : pyobject :=
  default bare_object (heap st !! a).

(** [cls.mro()] *)
Definition mro (st : state) (cls : string) : list string :=
  cls :: match classes st !! cls with
         | Some k => cls_ancestors k
         | None => []
         end.

(** [vars(cls)] *)
Definition vars (st : state) (cls : string) : list (string * value) :=
  match classes st !! cls with
  | Some k => cls_vars k
  | None => []
  end.

Definition issubclass (st : state) (cls base : string) : bool :=
  bool_decide (base ∈ mro st cls).

Definition isinstance (st : state) (obj : addr) (cls : string) : bool :=
  issubclass st (obj_class (object_at st obj)) cls.

Fixpoint assoc (key : string) (d : list (string * value)) : option value :=
  match d with
  | [] => None
  | (k, v) :: d' => if String.eqb key k then Some v else assoc key d'
  end.

(** The first namespace along a method resolution order that defines
    [name]; [namespace] gives the namespace of each class. *)
Fixpoint lookup_mro (namespace : string -> list (string * value))
    (name : string) (order : list string) : option value :=
  match order with
  | [] => None
  | c :: order' =>
      match assoc name (namespace c) with
      | Some v => Some v
      | None => lookup_mro namespace name order'
      end
  end.

(** [getattr(cls, name)] on a class: functions come back as they are, class
    methods come back bound to the class. *)
Definition getattr_class (st : state) (cls name : string) : outcome value :=
  match lookup_mro (vars st) name (mro st cls) with
  | Some (VClassMethod f) => Ret (VMethod f (OnClass cls))
  | Some v => Ret v
  | None => Raise AttributeError
  end.

(** [getattr(obj, name)] on an instance: the instance namespace wins over
    functions found on the class, which come back as bound methods. *)
Definition getattr (st : state) (obj : addr) (name : string) : outcome value :=
  let o := object_at st obj in
  match obj_dict o !! name with
  | Some v => Ret v
  | None =>
      match lookup_mro (vars st) name (mro st (obj_class o)) with
      | Some (VFunction f) => Ret (VMethod f (OnInstance obj))
      | Some (VClassMethod f) => Ret (VMethod f (OnClass (obj_class o)))
      | Some v => Ret v
      | None => Raise AttributeError
      end
  end.

(** [inspect.isfunction] *)
Definition isfunction (v : value) : bool :=
  match v with
  | VFunction _ => true
  | _ => false
  end.

(** [inspect.getsourcelines(v)[0]]: [OSError] when the source is not
    available, [TypeError] for values that carry no code. *)
Definition getsourcelines (st : state) (v : value) : outcome (list string) :=
  match v with
  | VFunction f | VMethod f _ =>
      match fn_source f with
      | Some lines => Ret lines
      | None => Raise OSError
      end
  | VClass name =>
      match classes st !! name with
      | Some k =>
          match cls_source k with
          | Some lines => Ret lines
          | None => Raise OSError
          end
      | None => Raise OSError
      end
  | _ => Raise TypeError
  end.

(** [inspect.getsource(v)] *)
Definition getsource (st : state) (v : value) : outcome string :=
  let* lines := getsourcelines st v in Ret (PyStr.join lines).

(** Truth value testing. *)
Definition truthy (v : value) : bool :=
  match v with
  | VNone => false
  | VBool b => b
  | VInt n => negb (n =? 0)%Z
  | VStr s => negb (String.eqb s EmptyString)
  | VDict d => match d with [] => false | _ => true end
  | VFunction _ | VClassMethod _ | VMethod _ _ | VClass _ => true
  end.

(** [a and b] *)
Definition py_and (a b : value) : value := if truthy a then b else a.

(** [d.get(key, dflt)]: only dicts have a [get]. *)
Definition dict_get (d : value) (key : string) (dflt : value) : outcome value :=
  match d with
  | VDict entries => Ret (default dflt (assoc key entries))
  | _ => Raise AttributeError
  end.

(** [warnings.warn(w)] *)
Definition warn (w : warning) : py unit :=
  fun st => (Ret tt, State (classes st) (heap st) (warnings st ++ [w])).

(** ** [class Capability] *)

Module Capability.

(** *** [source_check] *)

Definition default_cap_methods : list string := ["unimplemented"; "__str__"].

(** The first loop: the names in [vars(cls)] bound to functions, the two
    default methods left out, in definition order. *)
Fixpoint collect_required (items : list (string * value))
    (required_methods : list string) : list string :=
  match items with
  | [] => required_methods
  | (key, value) :: items' =>
      if isfunction value && negb (bool_decide (key ∈ default_cap_methods))
      then collect_required items' (required_methods ++ [key])
      else collect_required items' required_methods
  end.

Definition required_methods (st : state) (cls : string) : list string :=
  collect_required (vars st cls) [].

(** The test of lines 46 to 50 on one source line. *)
Definition stub_line (line : string) : bool :=
  let line := PyStr.strip line in
  String.eqb (PyStr.slice_to 35 line) "raise CapabilityNotImplementedError"
  || String.eqb (PyStr.slice_to 13 line) "unimplemented"
  || String.eqb (PyStr.slice_to 25 line) "raise NotImplementedError".

(** The loop over [source_lines]: sets the flag and leaves at the first
    line that passes the test. *)
Fixpoint scan_lines (source_lines : list string) (notImplementedInCap : bool)
  : bool :=
  match source_lines with
  | [] => notImplementedInCap
  | line :: rest =>
      if stub_line line then true else scan_lines rest notImplementedInCap
  end.

(** The body of the [try] statement for one method.  It returns [true]
    when it reaches [source_capable = False; break] and [false] when it
    falls through to the next method. *)
Definition try_body (st : state) (cls : string) (model : addr)
    (method : string) : outcome bool :=
  let* cap_fn := getattr_class st cls method in
  let* source_lines := getsourcelines st cap_fn in
  let notImplementedInCap := scan_lines source_lines false in
  if notImplementedInCap then
    let* cap_fn' := getattr_class st cls method in
    let* cap_source := getsource st cap_fn' in
    let* model_fn := getattr st model method in
    let* model_source := getsource st model_fn in
    Ret (String.eqb cap_source model_source)
  else Ret false.

(** The loop over [required_methods], with its [except OSError] clause. *)
Fixpoint methods_loop (cls : string) (model : addr) (methods : list string)
    (source_capable : bool) : py bool :=
  match methods with
  | [] => ret source_capable
  | method :: rest =>
      fun st =>
        match try_body st cls model method with
        | Ret true => ret false st
        | Ret false => methods_loop cls model rest source_capable st
        | Raise OSError =>
            (let! _ := warn SourceUnavailableWarning in
             ret source_capable) st
        | Raise e => (Raise e, st)
        end
  end.

Definition source_check (cls : string) (model : addr) : py bool :=
  fun st => methods_loop cls model (required_methods st cls) true st.

(** *** [unimplemented] *)

Definition unimplemented (self : addr) (message : string) : py unit :=
  fun st =>
    let capabilities :=
      List.filter
        (fun obj => issubclass st obj "Capability"
                    && negb (issubclass st obj "Model"))
        (mro st (obj_class (object_at st self))) in
    let model := if isinstance st self "Model" then Some self else None in
    let capability :=
      match capabilities with
      | [] => None
      | c :: _ => Some c
      end in
    (Raise (CapabilityNotImplementedError model capability message), st).

(** *** [check] *)

Section Check.

(** What calling a value with no argument does: the code of the model's
    methods is outside this module. *)
Variable call : value -> py value.

(** Lines 92 to 102: the name registered for [cls] in
    [model.extra_capability_checks], and the instance check it names. *)
Definition instance_check (cls : string) (model : addr)
    (require_extra : bool) : py value :=
  let! checks := read (fun st => getattr st model "extra_capability_checks") in
  let! f_name :=
    (match checks with
     | VNone => ret (VBool false)
     | _ =>
         let! checks' :=
           read (fun st => getattr st model "extra_capability_checks") in
         read (fun _ => dict_get checks' cls VNone)
     end) in
  if truthy f_name then
    let! f :=
      read (fun st =>
              match f_name with
              | VStr name => getattr st model name
              | _ => Raise TypeError
              end) in
    call f
  else if negb require_extra then ret (VBool true)
  else ret (VBool false).

(** The body of [check], over the class method that [cls.source_check]
    resolves to. *)
Definition check_with (cls_source_check : string -> addr -> py bool)
    (cls : string) (model : addr) (require_extra : bool) : py value :=
  let! class_capable := read (fun st => Ret (isinstance st model cls)) in
  let! source_capable :=
    (if class_capable : bool
     then let! b := cls_source_check cls model in ret (VBool b)
     else ret VNone) in
  let! instance_capable := instance_check cls model require_extra in
  let! _ :=
    (if negb class_capable then warn NotInheritedWarning
     else if negb (truthy source_capable) then warn NotImplementedWarning
     else ret tt) in
  ret (py_and (py_and (VBool class_capable) instance_capable) source_capable).

Definition check (cls : string) (model : addr) (require_extra : bool)
  : py value :=
  check_with source_check cls model require_extra.

End Check.

End Capability.

(** ** [class ProducesNumber] and [class Runnable]

    Every method of the two capabilities has the one statement
    [self.unimplemented()]: the attribute is looked up on the receiver and
    called with no argument; the keyword arguments of the [Runnable]
    methods are not used. *)

Module ProducesNumber.

Section Methods.

Variable call : value -> py value.

Definition produce_number (self : addr) : py value :=
  let! unimplemented := read (fun st => getattr st self "unimplemented") in
  let! _ := call unimplemented in
  ret VNone.

End Methods.

End ProducesNumber.

Module Runnable.

Section Methods.

Variable call : value -> py value.

Definition run (self : addr) (run_params : list (string * value)) : py value :=
  let! unimplemented := read (fun st => getattr st self "unimplemented") in
  let! _ := call unimplemented in
  ret VNone.

Definition set_run_params (self : addr) (run_params : list (string * value))
  : py value :=
  let! unimplemented := read (fun st => getattr st self "unimplemented") in
  let! _ := call unimplemented in
  ret VNone.

Definition set_default_run_params (self : addr)
    (default_run_params : list (string * value)) : py value :=
  let! unimplemented := read (fun st => getattr st self "unimplemented") in
  let! _ := call unimplemented in
  ret VNone.

End Methods.

End Runnable.

(** ** The text of the module

    [inspect] reads source from the lines of the file; every function's
    source is a block of these lines. *)

Module Source.

Import PyStr.

Definition module_lines : list string := [
  line [EmptyString; EmptyString; EmptyString; "The base class for SciUnit capabilities."];
  line [EmptyString];
  line ["By inheriting a capability class, a model tells the test that it implements"];
  line ["that capability and that all of its methods are safe to call."];
  line ["The capability must then be implemented by the modeler (i.e. all of the"];
  line ["capabilty's methods must implemented in the model class)."];
  line [EmptyString; EmptyString; EmptyString; EmptyString];
  line [EmptyString];
  line ["import inspect, warnings"];
  line [EmptyString];
  line ["from .utils import warn_with_traceback"];
  line ["from .base import SciUnit"];
  line ["from .errors import CapabilityNotImplementedError"];
  line ["#from sciunit.models.examples import ConstModel, UniformModel"];
  line ["from typing import Union"];
  line [EmptyString];
  line [EmptyString];
  line ["class Capability(SciUnit):"];
  line ["    "; EmptyString; EmptyString; "Abstract base class for sciunit capabilities."; EmptyString; EmptyString; EmptyString];
  line [EmptyString];
  line ["    @classmethod"];
  line ["    def source_check(cls, model: 'sciunit.Model') -> bool:"];
  line ["        "; EmptyString; EmptyString; "Check whether the provided model implements all methods "];
  line ["            required by this Capability class."];
  line [EmptyString];
  line ["        Args:"];
  line ["            model (sciunit.Model): The sciunit model to be checked."];
  line [EmptyString];
  line ["        Returns:"];
  line ["            bool: True if `model` implements all required methods."];
  line ["        "; EmptyString; EmptyString; EmptyString];
  line ["        required_methods = []"];
  line ["        default_cap_methods = ["; "unimplemented"; ", "; "__str__"; "]"];
  line ["        source_capable = True"];
  line [EmptyString];
  line ["        for key, value in vars(cls).items():"];
  line ["            if inspect.isfunction(value) and key not in default_cap_methods:"];
  line ["                required_methods.append(key)"];
  line ["        "];
  line ["        for method in required_methods:"];
  line ["            try:"];
  line ["                source_lines = inspect.getsourcelines(getattr(cls, method))[0]"];
  line ["                notImplementedInCap = False"];
  line ["                for line in source_lines:"];
  line ["                    line = line.strip()"];
  line ["                    if ("];
  line ["                        line[:35] == "; "raise CapabilityNotImplementedError"; EmptyString];
  line ["                        or line[:13] == "; "unimplemented"; EmptyString];
  line ["                        or line[:25] == "; "raise NotImplementedError"; EmptyString];
  line ["                    ):"];
  line ["                        notImplementedInCap = True"];
  line ["                        break"];
  line ["                "];
  line ["                if notImplementedInCap:"];
  line ["                    cap_source = inspect.getsource(getattr(cls, method))"];
  line ["                    model_source = inspect.getsource(getattr(model, method))"];
  line [EmptyString];
  line ["                    if cap_source == model_source:"];
  line ["                        source_capable = False"];
  line ["                        break"];
  line [EmptyString];
  line ["            except OSError:"];
  line ["                warnings.warn("];
  line ["                    "; EmptyString; EmptyString; "Inspect cannot get the source, and it is not guaranteed that "];
  line ["                       all required methods have been implemented by the model"; EmptyString; EmptyString; EmptyString];
  line ["                    )"];
  line ["                break"];
  line ["        "];
  line ["        return source_capable"];
  line [EmptyString];
  line ["    @classmethod"];
  line ["    def check(cls, model: 'sciunit.Model', require_extra: bool=False) -> bool:"];
  line ["        "; EmptyString; EmptyString; "Check whether the provided model has this capability."];
  line [EmptyString];
  line ["        By default, uses isinstance.  If `require_extra`, also requires that an"];
  line ["        instance check be present in `model.extra_capability_checks`."];
  line [EmptyString];
  line ["        Args:"];
  line ["            model (Model): A sciunit model instance"];
  line ["            require_extra (bool, optional): [description]. Defaults to False."];
  line [EmptyString];
  line ["        Returns:"];
  line ["            bool: Whether the provided model has this capability."];
  line ["        "; EmptyString; EmptyString; EmptyString];
  line [EmptyString];
  line ["        class_capable = isinstance(model, cls)"];
  line ["        source_capable = None"];
  line [EmptyString];
  line ["        if class_capable:"];
  line ["            source_capable = cls.source_check(model)"];
  line [EmptyString];
  line ["        f_name = model.extra_capability_checks.get(cls, None) \"];
  line ["            if model.extra_capability_checks is not None \"];
  line ["            else False"];
  line [EmptyString];
  line ["        if f_name:"];
  line ["            f = getattr(model, f_name)"];
  line ["            instance_capable = f()"];
  line ["        elif not require_extra:"];
  line ["            instance_capable = True"];
  line ["        else:"];
  line ["            instance_capable = False"];
  line [EmptyString];
  line ["        if not class_capable:"];
  line ["            warnings.warn("; EmptyString; EmptyString; "The model class suppose to but doesn't inherit the Capability "];
  line ["                            class required by the Test class, and the score may be unavailable "];
  line ["                            due to this."; EmptyString; EmptyString; ")"];
  line ["        elif not source_capable:"];
  line ["            warnings.warn("; EmptyString; EmptyString; "The model class suppose to but doesn't implements methods required by"];
  line ["                            the Test class, and the score may be unavailable due to this."; EmptyString; EmptyString; ")"];
  line ["                            "];
  line ["        return class_capable and instance_capable and source_capable"];
  line [EmptyString];
  line ["    def unimplemented(self, message: str='') -> None:"];
  line ["        "; EmptyString; EmptyString; "Raise a `CapabilityNotImplementedError` with details."];
  line [EmptyString];
  line ["        Args:"];
  line ["            message (str, optional): Message for not implemented exception. Defaults to ''."];
  line [EmptyString];
  line ["        Raises:"];
  line ["            CapabilityNotImplementedError: Raise a `CapabilityNotImplementedError` with details."];
  line ["        "; EmptyString; EmptyString; EmptyString];
  line ["        from sciunit import Model"];
  line ["        capabilities = [obj for obj in self.__class__.mro() if issubclass(obj, Capability) and not issubclass(obj, Model)]"];
  line ["        model = self if isinstance(self, Model) else None"];
  line ["        capability = None if not capabilities else capabilities[0]"];
  line ["        raise CapabilityNotImplementedError(model, capability, message)"];
  line [EmptyString];
  line ["    class __metaclass__(type):"];
  line ["        @property"];
  line ["        def name(cls):"];
  line ["            return cls.__name__"];
  line [EmptyString];
  line ["    def __str__(self) -> str:"];
  line ["        return self.name"];
  line [EmptyString];
  line [EmptyString];
  line ["class ProducesNumber(Capability):"];
  line ["    "; EmptyString; EmptyString; "An example capability for producing some generic number."; EmptyString; EmptyString; EmptyString];
  line [EmptyString];
  line ["    def produce_number(self) -> None:"];
  line ["        "; EmptyString; EmptyString; "Produce a number."; EmptyString; EmptyString; EmptyString];
  line ["        self.unimplemented()"];
  line [EmptyString];
  line [EmptyString];
  line ["class Runnable(Capability):"];
  line ["    "; EmptyString; EmptyString; "Capability for models that can be run, i.e. simulated."; EmptyString; EmptyString; EmptyString];
  line [EmptyString];
  line ["    def run(self, **run_params) -> None:"];
  line ["        "; EmptyString; EmptyString; "Run, i.e. simulate the model."; EmptyString; EmptyString; EmptyString];
  line ["        self.unimplemented()"];
  line [EmptyString];
  line ["    def set_run_params(self, **run_params) -> None:"];
  line ["        "; EmptyString; EmptyString; "Set parameters for the next run."];
  line [EmptyString];
  line ["        Note these are parameters of the simulation itself, not the model."];
  line ["        "; EmptyString; EmptyString; EmptyString];
  line ["        self.unimplemented()"];
  line [EmptyString];
  line ["    def set_default_run_params(self, **default_run_params) -> None:"];
  line ["        "; EmptyString; EmptyString; "Set default parameters for all runs."];
  line [EmptyString];
  line ["        Note these are parameters of the simulation itself, not the model."];
  line ["        "; EmptyString; EmptyString; EmptyString];
  line ["        self.unimplemented()"]
].

(** The lines [first] to [last] of the file, counted from 1. *)
Definition block (first last : nat) : list string :=
  take (last + 1 - first) (drop (first - 1) module_lines).

End Source.

(** ** The classes of the module *)

Definition function (qualname : string) (first last : nat) : func :=
  Func qualname (Some (Source.block first last)).

Definition Capability_vars : list (string * value) := [
  ("__module__", VStr "sciunit.capabilities");
  ("__doc__", VStr "Abstract base class for sciunit capabilities.");
  ("source_check", VClassMethod (function "Capability.source_check" 21 69));
  ("check", VClassMethod (function "Capability.check" 71 112));
  ("unimplemented", VFunction (function "Capability.unimplemented" 114 127));
  ("__metaclass__", VClass "Capability.__metaclass__");
  ("__str__", VFunction (function "Capability.__str__" 134 135))
].

Definition ProducesNumber_vars : list (string * value) := [
  ("__module__", VStr "sciunit.capabilities");
  ("__doc__", VStr "An example capability for producing some generic number.");
  ("produce_number",
   VFunction (function "ProducesNumber.produce_number" 141 143))
].

Definition Runnable_vars : list (string * value) := [
  ("__module__", VStr "sciunit.capabilities");
  ("__doc__", VStr "Capability for models that can be run, i.e. simulated.");
  ("run", VFunction (function "Runnable.run" 149 151));
  ("set_run_params", VFunction (function "Runnable.set_run_params" 153 158));
  ("set_default_run_params",
   VFunction (function "Runnable.set_default_run_params" 160 165))
].

(** The three classes, over the method resolution order of the imported
    base class [SciUnit]. *)
Definition Capability_class (sciunit_mro : list string) : pyclass :=
  PyClass sciunit_mro Capability_vars (Some (Source.block 18 135)).

Definition ProducesNumber_class (sciunit_mro : list string) : pyclass :=
  PyClass ("Capability" :: sciunit_mro) ProducesNumber_vars
    (Some (Source.block 138 143)).

Definition Runnable_class (sciunit_mro : list string) : pyclass :=
  PyClass ("Capability" :: sciunit_mro) Runnable_vars
    (Some (Source.block 146 165)).

(** ** A small population of classes and instances

    The scenarios of the specification, and a second capability whose stubs
    raise directly. *)

Module Example.

Import PyStr.

(** Modelled from the spec: the base class [SciUnit] is imported from
    [sciunit.base]; it is taken to derive from [object] alone and to define
    nothing the module looks up. *)
Definition sciunit_mro : list string := ["SciUnit"; "object"].

Definition SciUnit_class : pyclass := PyClass ["object"] [] None.

(** Modelled from the spec: [Model] is imported from [sciunit]; a model
    exposes [extra_capability_checks], a mapping from capabilities to
    method names, which is [None] unless the model sets it. *)
Definition Model_class : pyclass :=
  PyClass sciunit_mro [("extra_capability_checks", VNone)] None.

Definition model_mro (capability : string) : list string :=
  ["Model"; capability; "Capability"; "SciUnit"; "object"].

(** [class ConstModel(Model, ProducesNumber)] with
    [def produce_number(self): return 5]. *)
Definition ConstModel_class : pyclass :=
  PyClass (model_mro "ProducesNumber")
    [("produce_number",
      VFunction (Func "ConstModel.produce_number"
                   (Some [line ["    def produce_number(self):"];
                          line ["        return 5"]])))]
    None.

(** [class BrokenModel(Model, ProducesNumber): pass] *)
Definition BrokenModel_class : pyclass :=
  PyClass (model_mro "ProducesNumber") [] None.

(** [class TwoStep(Capability)] with two methods, [prepare] and [finish],
    each of body [raise NotImplementedError()]. *)
Definition prepare_stub : func :=
  Func "TwoStep.prepare"
    (Some [line ["    def prepare(self):"];
           line ["        raise NotImplementedError()"]]).

Definition finish_stub : func :=
  Func "TwoStep.finish"
    (Some [line ["    def finish(self):"];
           line ["        raise NotImplementedError()"]]).

Definition TwoStep_class : pyclass :=
  PyClass ("Capability" :: sciunit_mro)
    [("prepare", VFunction prepare_stub); ("finish", VFunction finish_stub)]
    None.

(** [class LazyModel(Model, TwoStep): pass] *)
Definition LazyModel_class : pyclass :=
  PyClass (model_mro "TwoStep") [] None.

(** [class HalfModel(Model, TwoStep)]: [prepare] is overridden by a
    function built at run time, whose source [inspect] cannot find;
    [finish] is inherited. *)
Definition HalfModel_class : pyclass :=
  PyClass (model_mro "TwoStep")
    [("prepare", VFunction (Func "HalfModel.prepare" None))]
    None.

(** [class LateModel(Model, TwoStep)]: [prepare] is overridden in the
    class body, [finish] by a function built at run time. *)
Definition LateModel_prepare : func :=
  Func "LateModel.prepare"
    (Some [line ["    def prepare(self):"];
           line ["        self.ready = True"]]).

Definition LateModel_class : pyclass :=
  PyClass (model_mro "TwoStep")
    [("prepare", VFunction LateModel_prepare);
     ("finish", VFunction (Func "LateModel.finish" None))]
    None.

(** [class FullModel(Model, TwoStep)] overrides both methods, and has two
    methods to register as extra checks. *)
Definition FullModel_is_ready : func :=
  Func "FullModel.is_ready"
    (Some [line ["    def is_ready(self):"];
           line ["        return True"]]).

Definition FullModel_first_time : func :=
  Func "FullModel.first_time"
    (Some [line ["    def first_time(self):"];
           line ["        fresh = self.fresh"];
           line ["        self.fresh = False"];
           line ["        return fresh"]]).

Definition FullModel_class : pyclass :=
  PyClass (model_mro "TwoStep")
    [("prepare",
      VFunction (Func "FullModel.prepare"
                   (Some [line ["    def prepare(self):"];
                          line ["        self.ready = True"]])));
     ("finish",
      VFunction (Func "FullModel.finish"
                   (Some [line ["    def finish(self):"];
                          line ["        self.ready = False"]])));
     ("is_ready", VFunction FullModel_is_ready);
     ("first_time", VFunction FullModel_first_time)]
    None.

Definition example_classes : gmap string pyclass :=
  list_to_map [
    ("object", PyClass [] [] None);
    ("SciUnit", SciUnit_class);
    ("Model", Model_class);
    ("Capability", Capability_class sciunit_mro);
    ("ProducesNumber", ProducesNumber_class sciunit_mro);
    ("Runnable", Runnable_class sciunit_mro);
    ("TwoStep", TwoStep_class);
    ("ConstModel", ConstModel_class);
    ("BrokenModel", BrokenModel_class);
    ("LazyModel", LazyModel_class);
    ("HalfModel", HalfModel_class);
    ("LateModel", LateModel_class);
    ("FullModel", FullModel_class)
  ].

(** The instances. *)
Definition const_model : addr := 1.
Definition broken_model : addr := 2.
Definition plain_object : addr := 3.
Definition misnamed_model : addr := 4.
Definition lazy_model : addr := 5.
Definition half_model : addr := 6.
Definition full_model : addr := 7.
Definition checked_model : addr := 8.
Definition flaky_model : addr := 9.
Definition misregistered_model : addr := 10.
Definition late_model : addr := 11.

Definition example_heap : gmap addr pyobject :=
  list_to_map [
    (const_model, PyObject "ConstModel" ∅);
    (broken_model, PyObject "BrokenModel" ∅);
    (plain_object, PyObject "object" ∅);
    (** a model that registers a check it does not define *)
    (misnamed_model,
     PyObject "ConstModel"
       {[ "extra_capability_checks" := VDict [("Runnable", VStr "can_run")] ]});
    (lazy_model, PyObject "LazyModel" ∅);
    (half_model, PyObject "HalfModel" ∅);
    (full_model, PyObject "FullModel" ∅);
    (checked_model,
     PyObject "FullModel"
       {[ "extra_capability_checks" := VDict [("TwoStep", VStr "is_ready")] ]});
    (flaky_model,
     PyObject "FullModel"
       (<[ "extra_capability_checks" := VDict [("TwoStep", VStr "first_time")] ]>
          {[ "fresh" := VBool true ]}));
    (** a model that inherits both stubs and registers a check it does
        not define *)
    (misregistered_model,
     PyObject "LazyModel"
       {[ "extra_capability_checks" := VDict [("TwoStep", VStr "is_ready")] ]});
    (late_model, PyObject "LateModel" ∅)
  ].

Definition example_state : state := State example_classes example_heap [].

(** [self.fresh = v] *)
Definition set_fresh (self : addr) (v : value) (st : state) : state :=
  State (classes st)
    (<[ self := PyObject (obj_class (object_at st self))
                  (<[ "fresh" := v ]> (obj_dict (object_at st self))) ]>
       (heap st))
    (warnings st).

(** The code of the example methods, by qualified name. *)
Definition example_call (f : value) : py value :=
  match f with
  | VMethod fn (OnInstance self) =>
      if String.eqb (fn_qualname fn) "ConstModel.produce_number" then
        ret (VInt 5)
      else if String.eqb (fn_qualname fn) "FullModel.is_ready" then
        ret (VBool true)
      else if String.eqb (fn_qualname fn) "FullModel.first_time" then
        fun st =>
          match getattr st self "fresh" with
          | Ret fresh => (Ret fresh, set_fresh self (VBool false) st)
          | Raise e => (Raise e, st)
          end
      else if String.eqb (fn_qualname fn) "FullModel.prepare" then
        ret VNone
      else if String.eqb (fn_qualname fn) "FullModel.finish" then
        ret VNone
      else if String.eqb (fn_qualname fn) "HalfModel.prepare" then
        ret VNone
      else if String.eqb (fn_qualname fn) "LateModel.prepare" then
        ret VNone
      else if String.eqb (fn_qualname fn) "LateModel.finish" then
        ret VNone
      else if String.eqb (fn_qualname fn) "TwoStep.prepare" then
        fun st => (Raise (OtherError "NotImplementedError"), st)
      else if String.eqb (fn_qualname fn) "TwoStep.finish" then
        fun st => (Raise (OtherError "NotImplementedError"), st)
      else
        (** the stubs of the module: [self.unimplemented()] *)
        let! _ := Capability.unimplemented self EmptyString in ret VNone
  | _ => fun st => (Raise TypeError, st)
  end.

(** A check that always succeeds and touches nothing. *)
Definition always_true (f : value) : py value := ret (VBool true).

End Example.

(** More models, for the edge cases. *)

Module MoreExamples.

Import Example.

(** [class BothModel(Model, Runnable, ProducesNumber): pass] *)
Definition BothModel_class : pyclass :=
  PyClass ["Model"; "Runnable"; "ProducesNumber"; "Capability"; "SciUnit";
           "object"] [] None.

Definition more_classes : gmap string pyclass :=
  <[ "BothModel" := BothModel_class ]> example_classes.

(** a [FullModel] whose registry maps [TwoStep] to [True] instead of a
    method name *)
Definition flagged_model : addr := 12.

(** a [FullModel] whose registry maps [TwoStep] to the empty name *)
Definition unnamed_model : addr := 13.

(** a [FullModel] on which [finish] has been set to a number *)
Definition shadowing_model : addr := 14.

Definition both_model : addr := 15.

Definition more_heap : gmap addr pyobject :=
  <[ flagged_model :=
       PyObject "FullModel"
         {[ "extra_capability_checks" := VDict [("TwoStep", VBool true)] ]} ]>
    (<[ unnamed_model :=
          PyObject "FullModel"
            {[ "extra_capability_checks" :=
                 VDict [("TwoStep", VStr EmptyString)] ]} ]>
       (<[ shadowing_model := PyObject "FullModel" {[ "finish" := VInt 5 ]} ]>
          (<[ both_model := PyObject "BothModel" ∅ ]> example_heap))).

Definition more_state : state := State more_classes more_heap [].

End MoreExamples.

(** Models whose registered extra check is not reached, or raises. *)

Module RegistryExamples.

Import Example MoreExamples.

(** a [FullModel] that registers [is_ready], which it defines, and on
    which [finish] has been set to a number *)
Definition shadowed_ready_model : addr := 16.

(** a [LazyModel] that registers the stub [prepare], which raises *)
Definition raising_check_model : addr := 17.

Definition registry_heap : gmap addr pyobject :=
  <[ shadowed_ready_model :=
       PyObject "FullModel"
         (<[ "extra_capability_checks" := VDict [("TwoStep", VStr "is_ready")] ]>
            {[ "finish" := VInt 5 ]}) ]>
    (<[ raising_check_model :=
          PyObject "LazyModel"
            {[ "extra_capability_checks" :=
                 VDict [("TwoStep", VStr "prepare")] ]} ]>
       more_heap).

Definition registry_state : state := State more_classes registry_heap [].

End RegistryExamples.

(** ** Vocabulary of the properties *)

Import Capability.

(** The state after the warnings [ws] have been emitted. *)
Definition emit (st : state) (ws : list warning) : state :=
  State (classes st) (heap st) (warnings st ++ ws).

(** Two states with the same classes and instances. *)
Definition same_store (st st' : state) : Prop :=
  classes st = classes st' /\ heap st = heap st'.

(** A computation whose result and emitted warnings are determined by the
    classes and instances, and which writes nothing but those warnings. *)
Definition read_only {A} (m : py A) : Prop :=
  forall st, exists r ws,
    m st = (r, emit st ws) /\
    forall st', same_store st st' -> m st' = (r, emit st' ws).

(** Running a computation a second time gives the result of the first. *)
Definition repeatable {A} (m : py A) : Prop :=
  forall st, fst (m (snd (m st))) = fst (m st).

Definition stub_prefixes : list string :=
  ["raise CapabilityNotImplementedError"; "unimplemented";
   "raise NotImplementedError"].

(** [cls] is one of the two capabilities, with the namespace the module
    gives it. *)
Definition declared_in_module (st : state) (cls : string) : Prop :=
  (cls = "ProducesNumber" /\ vars st cls = ProducesNumber_vars) \/
  (cls = "Runnable" /\ vars st cls = Runnable_vars).

(** [method] is a function of [cls] whose last line is the call
    [self.unimplemented()], and no line of which passes the stub test. *)
Definition written_through_receiver (st : state) (cls method : string) : Prop :=
  exists f lines line,
    assoc method (vars st cls) = Some (VFunction f) /\
    fn_source f = Some lines /\
    last lines = Some line /\
    PyStr.strip line = "self.unimplemented()" /\
    scan_lines lines false = false.

(** The condition of the comprehension: a subclass of [Capability] that is
    not a subclass of [Model]. *)
Definition capability_ancestor (st : state) (cls : string) : bool :=
  issubclass st cls "Capability" && negb (issubclass st cls "Model").

(** [capability] is the first class of [order] that is a capability
    ancestor, or nothing when [order] has none. *)
Definition most_specific_capability (st : state) (order : list string)
    (capability : option string) : Prop :=
  match capability with
  | Some c =>
      exists before after,
        order = (before ++ c :: after)%list /\
        capability_ancestor st c = true /\
        Forall (fun k => capability_ancestor st k = false) before
  | None => Forall (fun k => capability_ancestor st k = false) order
  end.

(** Values [inspect] can look for the source of. *)
Definition inspectable (v : value) : bool :=
  match v with
  | VFunction _ | VMethod _ _ | VClass _ => true
  | _ => false
  end.

(** Both versions of [method] resolve to code. *)
Definition body_resolvable (st : state) (cls : string) (model : addr)
    (method : string) : bool :=
  match getattr_class st cls method, getattr st model method with
  | Ret cap_fn, Ret model_fn => inspectable cap_fn && inspectable model_fn
  | _, _ => false
  end.

Definition bodies_resolvable (st : state) (cls : string) (model : addr) : bool :=
  forallb (body_resolvable st cls model) (required_methods st cls).

(** Lines 86 to 90, run from [st]: the class verdict, the source verdict
    ([None] when [source_check] is not consulted) and the state they
    leave. *)
Inductive conformance (cls : string) (model : addr) (st : state)
  : bool -> value -> state -> Prop :=
| conformance_no_class :
    isinstance st model cls = false ->
    conformance cls model st false VNone st
| conformance_class b st0 :
    isinstance st model cls = true ->
    source_check cls model st = (Ret b, st0) ->
    conformance cls model st true (VBool b) st0.

(** The warnings of lines 104 to 110. *)
Definition verdict_warnings (class_capable : bool) (source_capable : value)
  : list warning :=
  if negb class_capable then [NotInheritedWarning]
  else if negb (truthy source_capable) then [NotImplementedWarning]
  else [].

(** [model.extra_capability_checks] is [None], or a dict with no entry for
    [cls]. *)
Definition no_entry (st : state) (model : addr) (cls : string) : Prop :=
  getattr st model "extra_capability_checks" = Ret VNone
  \/ exists d,
       getattr st model "extra_capability_checks" = Ret (VDict d) /\
       assoc cls d = None.

(** [model.extra_capability_checks] maps [cls] to the method name [name]. *)
Definition registered (st : state) (model : addr) (cls name : string) : Prop :=
  exists d,
    getattr st model "extra_capability_checks" = Ret (VDict d) /\
    assoc cls d = Some (VStr name) /\
    name <> EmptyString.

(** The capability's version of [method] is taken for a stub, and the
    model's version has the same source text. *)
Definition unoverridden_stub (st : state) (cls : string) (model : addr)
    (method : string) : Prop :=
  exists cap_fn lines model_fn,
    getattr_class st cls method = Ret cap_fn /\
    getsourcelines st cap_fn = Ret lines /\
    scan_lines lines false = true /\
    getattr st model method = Ret model_fn /\
    getsource st model_fn = Ret (PyStr.join lines).

(** The source text of both versions of [method] can be retrieved. *)
Definition sources_retrievable (st : state) (cls : string) (model : addr)
    (method : string) : Prop :=
  exists cap_fn lines model_fn text,
    getattr_class st cls method = Ret cap_fn /\
    getsourcelines st cap_fn = Ret lines /\
    getattr st model method = Ret model_fn /\
    getsource st model_fn = Ret text.

(** Retrieving source text for [method] raises [OSError]: for the
    capability's version, or, when that version is taken for a stub, for
    the model's. *)
Definition source_unavailable (st : state) (cls : string) (model : addr)
    (method : string) : Prop :=
  exists cap_fn,
    getattr_class st cls method = Ret cap_fn /\
    (getsourcelines st cap_fn = Raise OSError
     \/ exists lines model_fn,
          getsourcelines st cap_fn = Ret lines /\
          scan_lines lines false = true /\
          getattr st model method = Ret model_fn /\
          getsource st model_fn = Raise OSError).

(** A string of whitespace only. *)
Fixpoint all_space (s : string) : bool :=
  match s with
  | EmptyString => true
  | String c s' => PyStr.isspace c && all_space s'
  end.

(** The test of the first loop of [source_check] on one item of
    [vars(cls)]. *)
Definition required_item (item : string * value) : bool :=
  isfunction (snd item) && negb (bool_decide (fst item ∈ default_cap_methods)).

(** The model passes for [method]: the capability's version has
    retrievable source, and either the scan does not take it for a stub, or
    the model's version has retrievable source with a different text. *)
Definition overridden (st : state) (cls : string) (model : addr)
    (method : string) : Prop :=
  exists cap_fn lines,
    getattr_class st cls method = Ret cap_fn /\
    getsourcelines st cap_fn = Ret lines /\
    (scan_lines lines false = false
     \/ exists model_fn text,
          getattr st model method = Ret model_fn /\
          getsource st model_fn = Ret text /\
          text <> PyStr.join lines).

(** The capability's version of [method] is taken for a stub, and
    retrieving the model's version or its source raises [e]. *)
Definition model_version_raises (st : state) (cls : string) (model : addr)
    (method : string) (e : exn) : Prop :=
  exists cap_fn lines,
    getattr_class st cls method = Ret cap_fn /\
    getsourcelines st cap_fn = Ret lines /\
    scan_lines lines false = true /\
    (getattr st model method = Raise e
     \/ exists model_fn,
          getattr st model method = Ret model_fn /\
          getsource st model_fn = Raise e).

(** The function object of [Capability.unimplemented]. *)
Definition unimplemented_fn : func :=
  function "Capability.unimplemented" 114 127.

(** Calling the bound method [self.unimplemented] with no argument runs
    [unimplemented] with the default message. *)
Definition runs_unimplemented (call : value -> py value) : Prop :=
  forall self,
    call (VMethod unimplemented_fn (OnInstance self))
    = (let! _ := unimplemented self EmptyString in ret VNone).

(** The registry has an entry for [cls], but a false one: [None], the
    empty name, zero. *)
Definition false_entry (st : state) (model : addr) (cls : string) : Prop :=
  exists d v,
    getattr st model "extra_capability_checks" = Ret (VDict d) /\
    assoc cls d = Some v /\
    truthy v = false.

(** The registry has for [cls] an entry that is true and is not a string. *)
Definition unusable_entry (st : state) (model : addr) (cls : string) : Prop :=
  exists d v,
    getattr st model "extra_capability_checks" = Ret (VDict d) /\
    assoc cls d = Some v /\
    truthy v = true /\
    (forall name, v <> VStr name).

(** Lines 92 to 94 as a reading of the state: the value of [f_name]. *)
Definition registered_name (st : state) (model : addr) (cls : string)
  : outcome value :=
  let* checks := getattr st model "extra_capability_checks" in
  match checks with
  | VNone => Ret (VBool false)
  | _ =>
      let* checks' := getattr st model "extra_capability_checks" in
      dict_get checks' cls VNone
  end.

(** At [st], the result of the computation and the warnings it emits
    are determined by the classes and instances, and it writes nothing but
    those warnings. *)
Definition read_only_at {A} (m : py A) (st : state) : Prop :=
  exists r ws,
    m st = (r, emit st ws) /\
    forall st', same_store st st' -> m st' = (r, emit st' ws).

(** [f] is what the name that [model.extra_capability_checks] registers
    for [cls] resolves to on the model: the extra check that [check]
    calls. *)
Definition extra_check_of (st : state) (model : addr) (cls : string)
    (f : value) : Prop :=
  exists name,
    registered st model cls name /\ getattr st model name = Ret f.

(** ** Properties *)

(** Closed statements about the examples are settled by evaluation. *)
Ltac evaluated := repeat split; vm_compute; reflexivity.

Lemma emit_nil st : emit st [] = st.
Proof. destruct st as [c h w]. unfold emit. simpl. by rewrite app_nil_r. Qed.

Lemma emit_emit st ws ws' : emit (emit st ws) ws' = emit st (ws ++ ws').
Proof. unfold emit. simpl. by rewrite app_assoc. Qed.

Lemma same_store_emit st ws : same_store st (emit st ws).
Proof. by split. Qed.

Lemma same_store_refl st : same_store st st.
Proof. by split. Qed.

Lemma same_store_sym st st' : same_store st st' -> same_store st' st.
Proof. intros [Hc Hh]. by split. Qed.

Lemma same_store_trans st1 st2 st3 :
  same_store st1 st2 -> same_store st2 st3 -> same_store st1 st3.
Proof. intros [Hc Hh] [Hc' Hh']. split; congruence. Qed.

(** Reading depends on the store only. *)
Lemma getattr_same_store st st' obj name :
  same_store st st' -> getattr st obj name = getattr st' obj name.
Proof.
  destruct st as [c h w], st' as [c' h' w']. intros [Hc Hh]. simpl in *.
  subst. reflexivity.
Qed.

Lemma isinstance_same_store st st' obj cls :
  same_store st st' -> isinstance st obj cls = isinstance st' obj cls.
Proof.
  destruct st as [c h w], st' as [c' h' w']. intros [Hc Hh]. simpl in *.
  subst. reflexivity.
Qed.

Lemma try_body_same_store st st' cls model method :
  same_store st st' ->
  try_body st cls model method = try_body st' cls model method.
Proof.
  destruct st as [c h w], st' as [c' h' w']. intros [Hc Hh]. simpl in *.
  subst. reflexivity.
Qed.

Lemma required_methods_same_store st st' cls :
  same_store st st' -> required_methods st cls = required_methods st' cls.
Proof.
  destruct st as [c h w], st' as [c' h' w']. intros [Hc Hh]. simpl in *.
  subst. reflexivity.
Qed.

Lemma read_only_repeatable {A} (m : py A) : read_only m -> repeatable m.
Proof.
  intros Hro st. destruct (Hro st) as (r & ws & Hst & Hother).
  rewrite Hst. simpl. rewrite (Hother (emit st ws)); [done|].
  apply same_store_emit.
Qed.

Lemma read_only_ret {A} (a : A) : read_only (ret a).
Proof.
  intros st. exists (Ret a), []. split.
  - by rewrite emit_nil.
  - intros st' _. by rewrite emit_nil.
Qed.

(** *** [source_check] *)

Lemma methods_loop_read_only cls model methods source_capable :
  read_only (methods_loop cls model methods source_capable).
Proof.
  induction methods as [|method rest IH]; [apply read_only_ret|].
  intros st. simpl.
  destruct (try_body st cls model method) as [[|]|e] eqn:Hbody.
  - exists (Ret false), []. rewrite emit_nil. split; [done|].
    intros st' Hst'. rewrite <- (try_body_same_store st st') by done.
    by rewrite Hbody, emit_nil.
  - destruct (IH st) as (r & ws & Hrun & Hother). exists r, ws.
    split; [done|]. intros st' Hst'.
    rewrite <- (try_body_same_store st st') by done. rewrite Hbody. auto.
  - assert (Hraise :
      forall st', try_body st' cls model method = Raise e ->
        match e with
        | OSError =>
            (let! _ := warn SourceUnavailableWarning in ret source_capable) st'
        | _ => (Raise e, st')
        end
        = (match e with OSError => Ret source_capable | _ => Raise e end,
           emit st' (match e with
                     | OSError => [SourceUnavailableWarning]
                     | _ => []
                     end))).
    { intros st' _. destruct e; rewrite ?emit_nil; reflexivity. }
    exists (match e with OSError => Ret source_capable | _ => Raise e end),
      (match e with OSError => [SourceUnavailableWarning] | _ => [] end).
    split.
    + rewrite <- (Hraise st Hbody). by destruct e.
    + intros st' Hst'. rewrite <- (try_body_same_store st st') by done.
      rewrite Hbody. rewrite <- (Hraise st'); [by destruct e|].
      by rewrite <- (try_body_same_store st st').
Qed.

Lemma source_check_read_only cls model : read_only (source_check cls model).
Proof.
  intros st. unfold source_check.
  destruct (methods_loop_read_only cls model (required_methods st cls) true st)
    as (r & ws & Hrun & Hother).
  exists r, ws. split; [done|]. intros st' Hst'.
  rewrite <- (required_methods_same_store st st') by done. auto.
Qed.

(** The three ways the loop can end: a verdict and no warning; the caveat
    and the verdict held so far; or an exception other than [OSError]. *)
Lemma methods_loop_outcomes cls model methods source_capable st :
  (exists b, methods_loop cls model methods source_capable st = (Ret b, st))
  \/ methods_loop cls model methods source_capable st
     = (Ret source_capable, emit st [SourceUnavailableWarning])
  \/ (exists e, e <> OSError /\
        methods_loop cls model methods source_capable st = (Raise e, st)).
Proof.
  induction methods as [|method rest IH]; simpl.
  - left. by exists source_capable.
  - destruct (try_body st cls model method) as [[|]|e].
    + left. by exists false.
    + apply IH.
    + destruct e; try (right; right; eexists; split; [|reflexivity]; done).
      right. left. reflexivity.
Qed.

(** Methods that fall through leave the loop where it was. *)
Lemma methods_loop_skip cls model pre rest source_capable st :
  Forall (fun m => try_body st cls model m = Ret false) pre ->
  methods_loop cls model (pre ++ rest) source_capable st
  = methods_loop cls model rest source_capable st.
Proof.
  induction 1 as [|m pre Hm _ IH]; [done|]. simpl. by rewrite Hm.
Qed.

(** When every earlier method is examined without an exception, the loop
    reaches a method that fails the comparison, or has already returned
    [false]. *)
Lemma methods_loop_fails cls model pre method rest source_capable st :
  Forall (fun m => exists b, try_body st cls model m = Ret b) pre ->
  try_body st cls model method = Ret true ->
  methods_loop cls model (pre ++ method :: rest) source_capable st
  = (Ret false, st).
Proof.
  intros Hpre Hm. induction Hpre as [|m pre [b Hb] _ IH]; simpl.
  - by rewrite Hm.
  - rewrite Hb. by destruct b.
Qed.

(** *** The stub test *)

Lemma slice_eqb_prefix (p s : string) :
  String.eqb (PyStr.slice_to (String.length p) s) p = String.prefix p s.
Proof.
  unfold PyStr.slice_to.
  destruct (String.prefix p s) eqn:Hp.
  - apply String.eqb_eq. by apply prefix_correct.
  - apply String.eqb_neq. intros Heq. apply prefix_correct in Heq. congruence.
Qed.

Lemma stub_line_spec line :
  stub_line line = true <->
  exists p, In p stub_prefixes /\ String.prefix p (PyStr.strip line) = true.
Proof.
  unfold stub_line.
  rewrite !orb_true_iff. split.
  - intros [[H|H]|H];
      [exists "raise CapabilityNotImplementedError"
      |exists "unimplemented"
      |exists "raise NotImplementedError"];
      (split; [simpl; tauto|]);
      rewrite <- slice_eqb_prefix; exact H.
  - intros (p & Hin & H). rewrite <- slice_eqb_prefix in H.
    destruct Hin as [<-|[<-|[<-|[]]]]; [left; left|left; right|right];
      exact H.
Qed.

Lemma scan_lines_spec lines :
  scan_lines lines false = true <->
  exists line, In line lines /\ stub_line line = true.
Proof.
  induction lines as [|line rest IH]; simpl.
  - split; [done|]. by intros (? & [] & _).
  - destruct (stub_line line) eqn:Hline.
    + split; [|done]. intros _. exists line. auto.
    + rewrite IH. split.
      * intros (l & Hin & Hl). exists l. auto.
      * intros (l & [<-|Hin] & Hl); [congruence|]. by exists l.
Qed.

(** A call through the receiver starts with none of the three prefixes. *)
Lemma receiver_call_not_stub line :
  PyStr.strip line = "self.unimplemented()" -> stub_line line = false.
Proof. intros Hstrip. unfold stub_line. by rewrite Hstrip. Qed.

(** *** Reading attributes *)

Lemma getattr_class_own st cls name v :
  assoc name (vars st cls) = Some v ->
  getattr_class st cls name
  = Ret (match v with VClassMethod f => VMethod f (OnClass cls) | _ => v end).
Proof.
  intros Hv. unfold getattr_class, mro. cbn [lookup_mro]. rewrite Hv.
  by destruct v.
Qed.

(** A method of the capability that the scan does not take for a stub is
    passed over, whatever the model does with it. *)
Lemma try_body_not_stub st cls model method f lines :
  assoc method (vars st cls) = Some (VFunction f) ->
  fn_source f = Some lines ->
  scan_lines lines false = false ->
  try_body st cls model method = Ret false.
Proof.
  intros Hv Hsrc Hscan. unfold try_body.
  rewrite (getattr_class_own _ _ _ _ Hv). simpl. rewrite Hsrc. simpl.
  by rewrite Hscan.
Qed.

(** *** The two capabilities the module declares *)

Lemma written_through_receiver_passes st cls model method :
  written_through_receiver st cls method ->
  try_body st cls model method = Ret false.
Proof.
  intros (f & lines & line & Hv & Hsrc & _ & _ & Hscan).
  by eapply try_body_not_stub.
Qed.

Lemma declared_methods_written_through_receiver st cls :
  declared_in_module st cls ->
  required_methods st cls <> [] /\
  Forall (written_through_receiver st cls) (required_methods st cls).
Proof.
  unfold required_methods, written_through_receiver.
  intros [[-> Hv]|[-> Hv]]; rewrite Hv.
  - change (collect_required ProducesNumber_vars []) with ["produce_number"].
    split; [done|]. repeat constructor.
    eexists _, _, _. repeat split; try reflexivity.
  - change (collect_required Runnable_vars [])
      with ["run"; "set_run_params"; "set_default_run_params"].
    split; [done|].
    repeat constructor; eexists _, _, _; repeat split; try reflexivity.
Qed.

(** C10. [source_check] takes a method of the capability for a stub exactly
    when one of its source lines, stripped, starts with one of the three
    literal prefixes.  The call [self.unimplemented()] starts with none of
    them; it is the body of every method that [ProducesNumber] and
    [Runnable] declare, so none of these methods is compared with the
    model's version, and [source_check] on these two capabilities returns
    [True] for every model, without a warning. *)
Theorem source_check_misses_receiver_stubs st cls model :
  declared_in_module st cls ->
  (forall lines,
     scan_lines lines false = true <->
     exists line p,
       In line lines /\ In p stub_prefixes /\
       String.prefix p (PyStr.strip line) = true)
  /\ (forall line,
        PyStr.strip line = "self.unimplemented()" -> stub_line line = false)
  /\ required_methods st cls <> []
  /\ Forall (written_through_receiver st cls) (required_methods st cls)
  /\ Forall (fun m => try_body st cls model m = Ret false)
       (required_methods st cls)
  /\ source_check cls model st = (Ret true, st).
Proof.
  intros Hdecl.
  destruct (declared_methods_written_through_receiver st cls Hdecl)
    as [Hne Hall].
  assert (Hpass : Forall (fun m => try_body st cls model m = Ret false)
                    (required_methods st cls)).
  { eapply Forall_impl; [exact Hall|]. intros m Hm.
    by apply written_through_receiver_passes. }
  split; [|split; [|split; [|split; [|split]]]]; try done.
  - intros lines. rewrite scan_lines_spec. split.
    + intros (line & Hin & Hstub). apply stub_line_spec in Hstub.
      destruct Hstub as (p & Hp & Hpre). by exists line, p.
    + intros (line & p & Hin & Hp & Hpre). exists line. split; [done|].
      apply stub_line_spec. by exists p.
  - apply receiver_call_not_stub.
  - unfold source_check.
    rewrite <- (app_nil_r (required_methods st cls)).
    by rewrite methods_loop_skip.
Qed.

(** *** [unimplemented] *)

Lemma filter_head {A} (p : A -> bool) (l : list A) :
  match List.filter p l with
  | [] => Forall (fun x => p x = false) l
  | c :: _ =>
      exists before after,
        l = (before ++ c :: after)%list /\ p c = true /\
        Forall (fun x => p x = false) before
  end.
Proof.
  induction l as [|x l IH]; simpl; [constructor|].
  destruct (p x) eqn:Hx.
  - exists [], l. by repeat split.
  - destruct (List.filter p l) as [|c rest].
    + by constructor.
    + destruct IH as (before & after & -> & Hc & Hbefore).
      exists (x :: before), after. repeat split; [done|]. by constructor.
Qed.

(** C7. [unimplemented] raises [CapabilityNotImplementedError] with the
    object itself when it is an instance of [Model] and nothing otherwise,
    with the first class of the object's method resolution order that is a
    subclass of [Capability] and not of [Model] (nothing when there is no
    such class), and with the message it was given.  The state is left as
    it was. *)
Theorem unimplemented_raises self message st :
  exists capability,
    unimplemented self message st
    = (Raise (CapabilityNotImplementedError
                (if isinstance st self "Model" then Some self else None)
                capability message),
       st)
    /\ most_specific_capability st
         (mro st (obj_class (object_at st self))) capability.
Proof.
  unfold unimplemented.
  pose proof (filter_head (capability_ancestor st)
                (mro st (obj_class (object_at st self)))) as Hhead.
  fold (capability_ancestor st).
  change (fun obj => issubclass st obj "Capability"
                     && negb (issubclass st obj "Model"))
    with (capability_ancestor st).
  destruct (List.filter (capability_ancestor st)
              (mro st (obj_class (object_at st self)))) as [|c rest].
  - by exists None.
  - by exists (Some c).
Qed.

(** *** The [except OSError] path *)

Lemma try_body_source_unavailable st cls model method :
  source_unavailable st cls model method ->
  try_body st cls model method = Raise OSError.
Proof.
  intros (cap_fn & Hcap & [Hlines|(lines & model_fn & Hlines & Hscan & Hmodel
                                   & Hsrc)]);
    unfold try_body; rewrite Hcap; simpl; rewrite Hlines; simpl; [done|].
  rewrite Hscan. unfold getsource at 1. rewrite Hlines. simpl.
  rewrite Hmodel. simpl. by rewrite Hsrc.
Qed.

(** C8.  When the methods before [method] have been examined and passed
    over, and retrieving source text for [method] raises [OSError], then
    [source_check] emits the caveat warning, examines nothing after
    [method], and returns [True], the verdict it holds at that point: it
    neither raises nor returns [False]. *)
Theorem source_check_source_unavailable cls model st before method after :
  required_methods st cls = (before ++ method :: after)%list ->
  Forall (fun m => try_body st cls model m = Ret false) before ->
  source_unavailable st cls model method ->
  source_check cls model st = (Ret true, emit st [SourceUnavailableWarning])
  /\ methods_loop cls model (before ++ [method])%list true st
     = (Ret true, emit st [SourceUnavailableWarning]).
Proof.
  intros Hreq Hbefore Hraise%try_body_source_unavailable.
  unfold source_check. rewrite Hreq.
  rewrite !methods_loop_skip by done. simpl. by rewrite Hraise.
Qed.

(** *** When [source_check] returns *)

Lemma getsourcelines_inspectable st v :
  inspectable v = true ->
  (exists lines, getsourcelines st v = Ret lines)
  \/ getsourcelines st v = Raise OSError.
Proof.
  destruct v; try done; intros _; simpl.
  - destruct (fn_source f); eauto.
  - destruct (fn_source f); eauto.
  - destruct (classes st !! name) as [k|]; [|by right].
    destruct (cls_source k); eauto.
Qed.

Lemma try_body_resolvable st cls model method :
  body_resolvable st cls model method = true ->
  (exists b, try_body st cls model method = Ret b)
  \/ try_body st cls model method = Raise OSError.
Proof.
  unfold body_resolvable, try_body, getsource.
  destruct (getattr_class st cls method) as [cap_fn|]; [|done].
  destruct (getattr st model method) as [model_fn|]; [|done].
  intros [Hcap Hmodel]%andb_true_iff. simpl.
  destruct (getsourcelines_inspectable st cap_fn Hcap) as [[lines ->]| ->];
    [|by right].
  simpl. destruct (scan_lines lines false); [|eauto]. simpl.
  destruct (getsourcelines_inspectable st model_fn Hmodel) as [[lines' ->]| ->];
    [|by right].
  simpl. eauto.
Qed.

Lemma methods_loop_returns cls model methods source_capable st :
  forallb (body_resolvable st cls model) methods = true ->
  exists b ws,
    methods_loop cls model methods source_capable st = (Ret b, emit st ws).
Proof.
  induction methods as [|method rest IH]; simpl.
  - intros _. exists source_capable, []. by rewrite emit_nil.
  - intros [Hm Hrest]%andb_true_iff.
    destruct (try_body_resolvable st cls model method Hm) as [[b ->]| ->].
    + destruct b; [|auto]. exists false, []. by rewrite emit_nil.
    + by exists source_capable, [SourceUnavailableWarning].
Qed.

(** [source_check] returns a verdict when every required method resolves
    to code on the capability and on the model. *)
Lemma source_check_returns cls model st :
  bodies_resolvable st cls model = true ->
  exists b ws, source_check cls model st = (Ret b, emit st ws).
Proof. apply methods_loop_returns. Qed.

(** *** [check] *)

Lemma conformance_same_store cls model st cc sc st0 :
  conformance cls model st cc sc st0 -> same_store st st0.
Proof.
  intros [Hcls|b st1 Hcls Hsrc]; [apply same_store_refl|].
  destruct (source_check_read_only cls model st) as (r & ws & Hrun & _).
  rewrite Hrun in Hsrc. injection Hsrc as _ <-. apply same_store_emit.
Qed.

Section CheckProperties.

Variable call : value -> py value.

(** [check], statement by statement, over any implementation of
    [source_check]. *)
Lemma check_with_run cls_source_check cls model require_extra st :
  check_with call cls_source_check cls model require_extra st
  = if isinstance st model cls then
      match cls_source_check cls model st with
      | (Ret b, st0) =>
          match instance_check call cls model require_extra st0 with
          | (Ret ic, st1) =>
              (Ret (py_and ic (VBool b)),
               emit st1 (verdict_warnings true (VBool b)))
          | (Raise e, st1) => (Raise e, st1)
          end
      | (Raise e, st0) => (Raise e, st0)
      end
    else
      match instance_check call cls model require_extra st with
      | (Ret ic, st1) => (Ret (VBool false), emit st1 [NotInheritedWarning])
      | (Raise e, st1) => (Raise e, st1)
      end.
Proof.
  unfold check_with, bind, read, ret.
  destruct (isinstance st model cls).
  - destruct (cls_source_check cls model st) as [[b|e] st0]; [|done].
    destruct (instance_check call cls model require_extra st0)
      as [[ic|e] st1]; [|done].
    destruct b; simpl; [|done]. by rewrite emit_nil.
  - by destruct (instance_check call cls model require_extra st)
      as [[ic|e] st1].
Qed.

Lemma check_run cls model require_extra st cc sc st0 ic st1 :
  conformance cls model st cc sc st0 ->
  instance_check call cls model require_extra st0 = (Ret ic, st1) ->
  check call cls model require_extra st
  = (Ret (py_and (py_and (VBool cc) ic) sc),
     emit st1 (verdict_warnings cc sc)).
Proof.
  intros Hconf Hic. unfold check. rewrite check_with_run.
  destruct Hconf as [Hcls|b st0 Hcls Hsrc]; rewrite Hcls.
  - by rewrite Hic.
  - by rewrite Hsrc, Hic.
Qed.

End CheckProperties.

(** *** The instance check *)

Lemma no_entry_same_store st st' model cls :
  same_store st st' -> no_entry st model cls -> no_entry st' model cls.
Proof.
  intros Hst. unfold no_entry.
  by rewrite (getattr_same_store st st' model _ Hst).
Qed.

Section InstanceCheck.

Variable call : value -> py value.

Lemma instance_check_no_entry cls model require_extra st :
  no_entry st model cls ->
  instance_check call cls model require_extra st
  = (Ret (VBool (negb require_extra)), st).
Proof.
  unfold instance_check, bind, read, ret.
  intros [H|(d & H & Hd)]; rewrite H; simpl.
  - by destruct require_extra.
  - rewrite H. simpl. rewrite Hd. simpl. by destruct require_extra.
Qed.

Lemma instance_check_registered cls model require_extra st name f :
  registered st model cls name ->
  getattr st model name = Ret f ->
  instance_check call cls model require_extra st = call f st.
Proof.
  unfold instance_check, bind, read, ret.
  intros (d & H & Hd & Hname) Hf. rewrite H. simpl. rewrite H. simpl.
  rewrite Hd. simpl.
  destruct (String.eqb_spec name EmptyString) as [|_]; [done|]. simpl.
  rewrite Hf. by destruct (call f st) as [[r|e] st1].
Qed.

End InstanceCheck.

(** *** Computations that only read *)

Lemma read_only_bind {A B} (m : py A) (k : A -> py B) :
  read_only m -> (forall a, read_only (k a)) -> read_only (bind m k).
Proof.
  intros Hm Hk st. unfold bind.
  destruct (Hm st) as (r & ws & Hrun & Hother). destruct r as [a|e].
  - destruct (Hk a (emit st ws)) as (r' & ws' & Hrun' & Hother').
    exists r', (ws ++ ws')%list. rewrite Hrun, Hrun', emit_emit.
    split; [done|]. intros st' Hst'. rewrite (Hother st' Hst').
    rewrite <- emit_emit. apply Hother'.
    destruct Hst' as [Hc Hh]. by split.
  - exists (Raise e), ws. rewrite Hrun. split; [done|].
    intros st' Hst'. by rewrite (Hother st' Hst').
Qed.

Lemma read_only_read {A} (f : state -> outcome A) :
  (forall st st', same_store st st' -> f st = f st') -> read_only (read f).
Proof.
  intros Hf st. exists (f st), []. unfold read. rewrite emit_nil.
  split; [done|]. intros st' Hst'. by rewrite emit_nil, (Hf st st').
Qed.

Lemma read_only_warn w : read_only (warn w).
Proof. intros st. by exists (Ret tt), [w]. Qed.

Lemma read_only_instance_check call cls model require_extra :
  (forall f, read_only (call f)) ->
  read_only (instance_check call cls model require_extra).
Proof.
  intros Hcall. unfold instance_check.
  apply read_only_bind.
  { apply read_only_read. intros. by apply getattr_same_store. }
  intros checks. apply read_only_bind.
  { destruct checks; try apply read_only_ret;
      (apply read_only_bind;
       [apply read_only_read; intros; by apply getattr_same_store
       |intros; by apply read_only_read]). }
  intros f_name. destruct (truthy f_name).
  - apply read_only_bind; [|done]. apply read_only_read. intros.
    destruct f_name; try done. by apply getattr_same_store.
  - destruct (negb require_extra); apply read_only_ret.
Qed.

Lemma read_only_check call cls model require_extra :
  (forall f, read_only (call f)) ->
  read_only (check call cls model require_extra).
Proof.
  intros Hcall. unfold check, check_with.
  apply read_only_bind.
  { apply read_only_read. intros st st' Hst.
    by rewrite (isinstance_same_store st st'). }
  intros class_capable. apply read_only_bind.
  { destruct class_capable; [|apply read_only_ret].
    apply read_only_bind; [apply source_check_read_only|].
    intros. apply read_only_ret. }
  intros source_capable. apply read_only_bind.
  { by apply read_only_instance_check. }
  intros instance_capable. apply read_only_bind; [|intros; apply read_only_ret].
  destruct (negb class_capable); [apply read_only_warn|].
  destruct (negb (truthy source_capable));
    [apply read_only_warn|apply read_only_ret].
Qed.

(** *** The verdict of [check] *)

Section Verdict.

Variable call : value -> py value.

(** C2, as amended.  [check] raises nothing of its own.  Either
    [source_check] (when it is consulted) and the instance check return,
    and then [check] returns the conjunction of the three verdicts,
    negative or not, and emits the warning that goes with a negative
    class or source verdict; or [check] raises the exception that
    [source_check] raised; or it raises the exception that the lookup or
    the call of the extra check raised. *)
Theorem check_raises_nothing_itself cls model require_extra st :
  (exists cc sc st0 ic st1,
     conformance cls model st cc sc st0 /\
     instance_check call cls model require_extra st0 = (Ret ic, st1) /\
     check call cls model require_extra st
     = (Ret (py_and (py_and (VBool cc) ic) sc),
        emit st1 (verdict_warnings cc sc)))
  \/ (exists e st',
        isinstance st model cls = true /\
        source_check cls model st = (Raise e, st') /\
        check call cls model require_extra st = (Raise e, st'))
  \/ (exists e cc sc st0 st',
        conformance cls model st cc sc st0 /\
        instance_check call cls model require_extra st0 = (Raise e, st') /\
        check call cls model require_extra st = (Raise e, st')).
Proof.
  unfold check. rewrite check_with_run.
  destruct (isinstance st model cls) eqn:Hcls.
  - destruct (source_check cls model st) as [[b|e] st0] eqn:Hsrc.
    + assert (Hconf : conformance cls model st true (VBool b) st0)
        by by constructor.
      destruct (instance_check call cls model require_extra st0)
        as [[ic|e] st1] eqn:Hic.
      * left. by exists true, (VBool b), st0, ic, st1.
      * right. right. by exists e, true, (VBool b), st0, st1.
    + right. left. by exists e, st0.
  - assert (Hconf : conformance cls model st false VNone st)
      by by constructor.
    destruct (instance_check call cls model require_extra st)
      as [[ic|e] st1] eqn:Hic.
    + left. by exists false, VNone, st, ic, st1.
    + right. right. by exists e, false, VNone, st, st1.
Qed.

(** C4, as amended.  When the model is not an instance of the capability
    and the instance check returns, [check] returns [False] and emits the
    warning about the missing base class; the outcome is the same
    whatever [cls.source_check] is, so it is not consulted. *)
Theorem check_not_inherited cls_source_check cls model require_extra st
    ic st1 :
  isinstance st model cls = false ->
  instance_check call cls model require_extra st = (Ret ic, st1) ->
  check call cls model require_extra st
  = (Ret (VBool false), emit st1 [NotInheritedWarning])
  /\ check_with call cls_source_check cls model require_extra st
     = check call cls model require_extra st.
Proof.
  intros Hcls Hic. unfold check. rewrite !check_with_run, Hcls.
  by rewrite Hic.
Qed.

(** C5, as amended.  When [model.extra_capability_checks] is [None] or
    has no entry for the capability, and [source_check], consulted when the
    model is an instance of the capability, returns, then the instance
    check of [check] with [require_extra=True] yields [False], and [check]
    returns [False] whatever the class and source verdicts are, also when
    the model is an instance of the capability and [source_check] returned
    [True]. *)
Theorem check_requires_extra cls model st cc sc st0 :
  no_entry st model cls ->
  conformance cls model st cc sc st0 ->
  instance_check call cls model true st0 = (Ret (VBool false), st0)
  /\ check call cls model true st
     = (Ret (VBool false), emit st0 (verdict_warnings cc sc)).
Proof.
  intros Hno Hconf.
  assert (Hic : instance_check call cls model true st0
                = (Ret (VBool false), st0)).
  { apply instance_check_no_entry.
    eapply no_entry_same_store; [|exact Hno].
    by eapply conformance_same_store. }
  split; [done|].
  rewrite (check_run call cls model true st cc sc st0 _ _ Hconf Hic).
  by destruct cc.
Qed.

(** C6, as amended.  When [model.extra_capability_checks] maps the
    capability to a method name, [source_check], consulted when the model
    is an instance of the capability, has returned, the name resolves on
    the model, and calling what it resolves to returns, then [check] with
    [require_extra=True] calls that method and returns
    [class_capable and result and source_capable]; the truth value of
    what it returns is the conjunction of the three. *)
Theorem check_registered_extra cls model st cc sc st0 name f result st1 :
  conformance cls model st cc sc st0 ->
  registered st0 model cls name ->
  getattr st0 model name = Ret f ->
  call f st0 = (Ret result, st1) ->
  instance_check call cls model true st0 = call f st0
  /\ check call cls model true st
     = (Ret (py_and (py_and (VBool cc) result) sc),
        emit st1 (verdict_warnings cc sc))
  /\ truthy (py_and (py_and (VBool cc) result) sc)
     = cc && truthy result && truthy sc.
Proof.
  intros Hconf Hreg Hf Hcall.
  assert (Hic : instance_check call cls model true st0 = call f st0)
    by by eapply instance_check_registered.
  split; [done|]. split.
  - eapply check_run; [done|]. by rewrite Hic.
  - unfold py_and. destruct cc; simpl; [|done].
    destruct (truthy result) eqn:Hr; simpl; [done|]. by rewrite Hr.
Qed.

End Verdict.

(** *** Stubs that are not overridden *)

Lemma try_body_unoverridden st cls model method :
  unoverridden_stub st cls model method ->
  try_body st cls model method = Ret true.
Proof.
  intros (cap_fn & lines & model_fn & Hcap & Hlines & Hscan & Hmodel & Hsrc).
  unfold try_body. rewrite Hcap. simpl. rewrite Hlines. simpl.
  rewrite Hscan. unfold getsource at 1. rewrite Hlines. simpl.
  rewrite Hmodel. simpl. rewrite Hsrc. simpl. by rewrite String.eqb_refl.
Qed.

Lemma try_body_retrievable st cls model method :
  sources_retrievable st cls model method ->
  exists b, try_body st cls model method = Ret b.
Proof.
  intros (cap_fn & lines & model_fn & text & Hcap & Hlines & Hmodel & Hsrc).
  unfold try_body. rewrite Hcap. simpl. rewrite Hlines. simpl.
  destruct (scan_lines lines false); [|eauto].
  unfold getsource at 1. rewrite Hlines. simpl.
  rewrite Hmodel. simpl. rewrite Hsrc. simpl. eauto.
Qed.

(** C3, as amended.  Let the model be an instance of the capability, let
    [method] be a required method that the line scan takes for a stub and
    whose source text on the model is that of the stub, and let the source
    text of every required method before it be retrievable.  Then
    [source_check] returns [False] without a warning.  When no extra check
    is registered, [check] returns [False] and emits the warning about
    unimplemented methods; in general, when the instance check returns
    [ic], [check] emits that warning and returns [ic and False], which is
    [False] when [ic] is true and is false in any case. *)
Theorem unoverridden_stub_fails call cls model require_extra st
    before method after :
  isinstance st model cls = true ->
  required_methods st cls = (before ++ method :: after)%list ->
  Forall (sources_retrievable st cls model) before ->
  unoverridden_stub st cls model method ->
  source_check cls model st = (Ret false, st)
  /\ (no_entry st model cls ->
      check call cls model false st
      = (Ret (VBool false), emit st [NotImplementedWarning]))
  /\ forall ic st1,
       instance_check call cls model require_extra st = (Ret ic, st1) ->
       check call cls model require_extra st
       = (Ret (py_and ic (VBool false)), emit st1 [NotImplementedWarning])
       /\ truthy (py_and ic (VBool false)) = false
       /\ (truthy ic = true -> py_and ic (VBool false) = VBool false).
Proof.
  intros Hcls Hreq Hbefore Hstub.
  assert (Hsrc : source_check cls model st = (Ret false, st)).
  { unfold source_check. rewrite Hreq. apply methods_loop_fails.
    - eapply Forall_impl; [exact Hbefore|]. apply try_body_retrievable.
    - by apply try_body_unoverridden. }
  split; [done|]. split.
  - intros Hno. unfold check.
    by rewrite check_with_run, Hcls, Hsrc, instance_check_no_entry.
  - intros ic st1 Hic. split; [|split].
    + unfold check. by rewrite check_with_run, Hcls, Hsrc, Hic.
    + unfold py_and. by destruct (truthy ic) eqn:Hic'.
    + unfold py_and. by intros ->.
Qed.

(** ** The scenarios, evaluated *)

Import Example.

(** C1.  [BrokenModel] subclasses [ProducesNumber] and inherits
    [produce_number].  The stub is written [self.unimplemented()], which
    the scan does not recognise, so [source_check] returns [True] and
    [check] returns [True] with no warning, although calling the method
    raises [CapabilityNotImplementedError] for [ProducesNumber]. *)
Theorem broken_model_passes_check :
  isinstance example_state broken_model "ProducesNumber" = true
  /\ getattr example_state broken_model "produce_number"
     = Ret (VMethod (function "ProducesNumber.produce_number" 141 143)
              (OnInstance broken_model))
  /\ source_check "ProducesNumber" broken_model example_state
     = (Ret true, example_state)
  /\ check example_call "ProducesNumber" broken_model false example_state
     = (Ret (VBool true), example_state)
  /\ example_call
       (VMethod (function "ProducesNumber.produce_number" 141 143)
          (OnInstance broken_model))
       example_state
     = (Raise (CapabilityNotImplementedError
                 (Some broken_model) (Some "ProducesNumber") EmptyString),
        example_state).
Proof. evaluated. Qed.

(** C2 fails as stated: a model that is not [Runnable], so that the verdict
    would be negative, registers for [Runnable] a check it does not define;
    [check] raises [AttributeError]. *)
Lemma check_raises_on_unresolved_extra_check :
  isinstance example_state misnamed_model "Runnable" = false
  /\ getattr example_state misnamed_model "extra_capability_checks"
     = Ret (VDict [("Runnable", VStr "can_run")])
  /\ getattr example_state misnamed_model "can_run" = Raise AttributeError
  /\ check example_call "Runnable" misnamed_model false example_state
     = (Raise AttributeError, example_state).
Proof. evaluated. Qed.

(** C3 fails as stated.  [HalfModel] inherits the stub [finish], but the
    source of its [prepare], examined first, cannot be retrieved:
    [source_check] stops there and returns [True], and so does [check].
    And a model that inherits both stubs but registers a check it does not
    define makes [check] raise instead of returning [False]. *)
Lemma unoverridden_stub_behind_unavailable_source :
  (isinstance example_state half_model "TwoStep" = true
   /\ unoverridden_stub example_state "TwoStep" half_model "finish"
   /\ source_check "TwoStep" half_model example_state
      = (Ret true, emit example_state [SourceUnavailableWarning])
   /\ check example_call "TwoStep" half_model false example_state
      = (Ret (VBool true), emit example_state [SourceUnavailableWarning]))
  /\ (isinstance example_state misregistered_model "TwoStep" = true
      /\ unoverridden_stub example_state "TwoStep" misregistered_model "prepare"
      /\ check example_call "TwoStep" misregistered_model false example_state
         = (Raise AttributeError, example_state)).
Proof.
  split; repeat split; try (vm_compute; reflexivity).
  - exists (VFunction finish_stub). eexists _, _.
    repeat split; vm_compute; reflexivity.
  - exists (VFunction prepare_stub). eexists _, _.
    repeat split; vm_compute; reflexivity.
Qed.

(** [LazyModel] inherits both stubs of [TwoStep]. *)
Lemma unoverridden_stub_fails_witness :
  isinstance example_state lazy_model "TwoStep" = true
  /\ required_methods example_state "TwoStep" = ["prepare"; "finish"]
  /\ sources_retrievable example_state "TwoStep" lazy_model "prepare"
  /\ unoverridden_stub example_state "TwoStep" lazy_model "finish"
  /\ source_check "TwoStep" lazy_model example_state
     = (Ret false, example_state)
  /\ check example_call "TwoStep" lazy_model false example_state
     = (Ret (VBool false), emit example_state [NotImplementedWarning]).
Proof.
  assert (Hcls : isinstance example_state lazy_model "TwoStep" = true)
    by reflexivity.
  assert (Hreq : required_methods example_state "TwoStep"
                 = (["prepare"] ++ "finish" :: [])%list) by reflexivity.
  assert (Hprepare :
            sources_retrievable example_state "TwoStep" lazy_model "prepare").
  { exists (VFunction prepare_stub). eexists _, _, _.
    repeat split; reflexivity. }
  assert (Hfinish :
            unoverridden_stub example_state "TwoStep" lazy_model "finish").
  { exists (VFunction finish_stub). eexists _, _.
    repeat split; reflexivity. }
  assert (Hbefore : Forall (sources_retrievable example_state "TwoStep"
                              lazy_model) ["prepare"])
    by (repeat constructor; exact Hprepare).
  assert (Hno : no_entry example_state lazy_model "TwoStep")
    by (left; reflexivity).
  destruct (unoverridden_stub_fails example_call "TwoStep" lazy_model false
              example_state ["prepare"] "finish" [] Hcls Hreq Hbefore Hfinish)
    as (Hsrc & Hcheck & _).
  repeat split; auto.
Defined.

(** C4 fails as stated: an instance of [object] is not [Runnable], but it
    has no [extra_capability_checks], and [check] raises [AttributeError]
    before any warning.  So does [check] on a [Model] that is not
    [Runnable] and registers for it a check it does not define. *)
Lemma check_plain_object_raises :
  obj_class (object_at example_state plain_object) = "object"
  /\ isinstance example_state plain_object "Runnable" = false
  /\ getattr example_state plain_object "extra_capability_checks"
     = Raise AttributeError
  /\ check example_call "Runnable" plain_object false example_state
     = (Raise AttributeError, example_state)
  /\ isinstance example_state misnamed_model "Runnable" = false
  /\ isinstance example_state misnamed_model "Model" = true
  /\ check example_call "Runnable" misnamed_model false example_state
     = (Raise AttributeError, example_state).
Proof. evaluated. Qed.

(** A [ConstModel] is not [Runnable] and registers no extra check. *)
Lemma check_not_inherited_witness :
  isinstance example_state const_model "Runnable" = false
  /\ instance_check example_call "Runnable" const_model false example_state
     = (Ret (VBool true), example_state)
  /\ check example_call "Runnable" const_model false example_state
     = (Ret (VBool false), emit example_state [NotInheritedWarning]).
Proof.
  assert (Hcls : isinstance example_state const_model "Runnable" = false)
    by reflexivity.
  assert (Hic : instance_check example_call "Runnable" const_model false
                  example_state = (Ret (VBool true), example_state))
    by reflexivity.
  destruct (check_not_inherited example_call source_check "Runnable"
              const_model false example_state (VBool true) example_state
              Hcls Hic) as [Hcheck _].
  repeat split; assumption.
Defined.

(** A [ConstModel] produces a number and registers no extra check: [check]
    accepts it by default and rejects it when an extra check is required. *)
Lemma check_requires_extra_witness :
  no_entry example_state const_model "ProducesNumber"
  /\ isinstance example_state const_model "ProducesNumber" = true
  /\ source_check "ProducesNumber" const_model example_state
     = (Ret true, example_state)
  /\ check example_call "ProducesNumber" const_model false example_state
     = (Ret (VBool true), example_state)
  /\ check example_call "ProducesNumber" const_model true example_state
     = (Ret (VBool false), emit example_state []).
Proof.
  assert (Hno : no_entry example_state const_model "ProducesNumber")
    by (left; reflexivity).
  assert (Hconf : conformance "ProducesNumber" const_model example_state true
                    (VBool true) example_state)
    by (constructor; reflexivity).
  destruct (check_requires_extra example_call "ProducesNumber" const_model
              example_state true (VBool true) example_state Hno Hconf)
    as [_ Hcheck].
  repeat split; try assumption; reflexivity.
Defined.

(** A [FullModel] that registers [is_ready] for [TwoStep]. *)
Lemma check_registered_extra_witness :
  conformance "TwoStep" checked_model example_state true (VBool true)
    example_state
  /\ registered example_state checked_model "TwoStep" "is_ready"
  /\ getattr example_state checked_model "is_ready"
     = Ret (VMethod FullModel_is_ready (OnInstance checked_model))
  /\ example_call (VMethod FullModel_is_ready (OnInstance checked_model))
       example_state
     = (Ret (VBool true), example_state)
  /\ check example_call "TwoStep" checked_model true example_state
     = (Ret (VBool true), emit example_state []).
Proof.
  assert (Hconf : conformance "TwoStep" checked_model example_state true
                    (VBool true) example_state)
    by (constructor; reflexivity).
  assert (Hreg : registered example_state checked_model "TwoStep" "is_ready").
  { exists [("TwoStep", VStr "is_ready")].
    repeat split; try reflexivity. discriminate. }
  assert (Hf : getattr example_state checked_model "is_ready"
               = Ret (VMethod FullModel_is_ready (OnInstance checked_model)))
    by reflexivity.
  assert (Hcall :
            example_call (VMethod FullModel_is_ready (OnInstance checked_model))
              example_state
            = (Ret (VBool true), example_state)) by reflexivity.
  destruct (check_registered_extra example_call "TwoStep" checked_model
              example_state true (VBool true) example_state "is_ready"
              _ (VBool true) example_state Hconf Hreg Hf Hcall)
    as (_ & Hcheck & _).
  repeat split; assumption.
Defined.

(** [LateModel] overrides [prepare] in its class body; the source of its
    [finish] cannot be retrieved. *)
Lemma source_check_source_unavailable_witness :
  required_methods example_state "TwoStep" = ["prepare"; "finish"]
  /\ try_body example_state "TwoStep" late_model "prepare" = Ret false
  /\ source_unavailable example_state "TwoStep" late_model "finish"
  /\ source_check "TwoStep" late_model example_state
     = (Ret true, emit example_state [SourceUnavailableWarning]).
Proof.
  assert (Hreq : required_methods example_state "TwoStep"
                 = (["prepare"] ++ "finish" :: [])%list) by reflexivity.
  assert (Hprepare :
            try_body example_state "TwoStep" late_model "prepare" = Ret false)
    by reflexivity.
  assert (Hfinish :
            source_unavailable example_state "TwoStep" late_model "finish").
  { exists (VFunction finish_stub). split; [reflexivity|]. right.
    eexists _, _. repeat split; reflexivity. }
  assert (Hbefore : Forall (fun m => try_body example_state "TwoStep"
                                       late_model m = Ret false) ["prepare"])
    by (repeat constructor; exact Hprepare).
  destruct (source_check_source_unavailable "TwoStep" late_model example_state
              ["prepare"] "finish" [] Hreq Hbefore Hfinish) as [Hsrc _].
  repeat split; assumption.
Defined.

(** C9 fails as stated for [check]: the registered extra check
    [first_time] clears [self.fresh] and returns what it was, so [check]
    writes to the model, and a second run on the same arguments returns
    [False] where the first returned [True]. *)
Lemma check_runs_extra_check_that_writes :
  fst (check example_call "TwoStep" flaky_model true example_state)
  = Ret (VBool true)
  /\ fst (check example_call "TwoStep" flaky_model true
            (snd (check example_call "TwoStep" flaky_model true example_state)))
     = Ret (VBool false)
  /\ getattr example_state flaky_model "fresh" = Ret (VBool true)
  /\ getattr (snd (check example_call "TwoStep" flaky_model true example_state))
       flaky_model "fresh"
     = Ret (VBool false)
  /\ classes (snd (check example_call "TwoStep" flaky_model true example_state))
     = classes example_state
  /\ warnings (snd (check example_call "TwoStep" flaky_model true example_state))
     = [].
Proof. evaluated. Qed.

(** [Runnable] and [ProducesNumber] as the module declares them. *)
Lemma source_check_misses_receiver_stubs_witness :
  declared_in_module example_state "Runnable"
  /\ required_methods example_state "Runnable"
     = ["run"; "set_run_params"; "set_default_run_params"]
  /\ isinstance example_state const_model "Runnable" = false
  /\ source_check "Runnable" const_model example_state
     = (Ret true, example_state)
  /\ source_check "ProducesNumber" broken_model example_state
     = (Ret true, example_state).
Proof.
  assert (Hrun : declared_in_module example_state "Runnable")
    by (right; split; reflexivity).
  assert (Hnum : declared_in_module example_state "ProducesNumber")
    by (left; split; reflexivity).
  destruct (source_check_misses_receiver_stubs example_state "Runnable"
              const_model Hrun) as (_ & _ & _ & _ & _ & Hsrc).
  destruct (source_check_misses_receiver_stubs example_state "ProducesNumber"
              broken_model Hnum) as (_ & _ & _ & _ & _ & Hsrc').
  repeat split; try assumption; reflexivity.
Defined.

(** ** Further properties of [source_check] *)

Lemma collect_required_filter items acc :
  collect_required items acc
  = (acc ++ map fst (List.filter required_item items))%list.
Proof.
  revert acc. induction items as [|[key v] items IH]; intros acc; simpl.
  - by rewrite app_nil_r.
  - unfold required_item at 1. simpl.
    destruct (isfunction v && negb (bool_decide (key ∈ default_cap_methods))).
    + rewrite IH. simpl. by rewrite <- app_assoc.
    + apply IH.
Qed.

(** X1.  The required methods of a capability are the names that its own
    namespace binds to functions, [unimplemented] and [__str__] left out,
    in the order of the namespace: what the capability inherits is not
    required. *)
Theorem required_methods_own_functions st cls :
  required_methods st cls = map fst (List.filter required_item (vars st cls))
  /\ forall method,
       In method (required_methods st cls) <->
       exists v,
         In (method, v) (vars st cls) /\ isfunction v = true /\
         method <> "unimplemented" /\ method <> "__str__".
Proof.
  assert (Heq : required_methods st cls
                = map fst (List.filter required_item (vars st cls))).
  { unfold required_methods. by rewrite collect_required_filter. }
  split; [done|]. intros method. rewrite Heq, in_map_iff. split.
  - intros ([key v] & <- & Hin). apply filter_In in Hin as [Hin Hreq].
    unfold required_item in Hreq. simpl in *.
    apply andb_true_iff in Hreq as [Hfun Hnot].
    apply negb_true_iff, bool_decide_eq_false in Hnot.
    exists v. repeat split; [done|done| |]; intros ->; apply Hnot;
      unfold default_cap_methods; set_solver.
  - intros (v & Hin & Hfun & Hne1 & Hne2). exists (method, v).
    split; [done|]. apply filter_In. split; [done|].
    unfold required_item. simpl. rewrite Hfun. simpl.
    apply negb_true_iff, bool_decide_eq_false.
    unfold default_cap_methods.
    rewrite !elem_of_cons, elem_of_nil. tauto.
Qed.

(** X2.  A capability whose own namespace binds no function besides
    [unimplemented] and [__str__] is satisfied by everything:
    [source_check] returns [True] without a warning and without looking
    at the model. *)
Theorem source_check_nothing_required cls model st :
  Forall (fun item => required_item item = false) (vars st cls) ->
  required_methods st cls = []
  /\ source_check cls model st = (Ret true, st).
Proof.
  intros Hnone.
  assert (Hreq : required_methods st cls = []).
  { unfold required_methods. rewrite collect_required_filter. simpl.
    induction Hnone as [|item items Hitem _ IH]; [done|].
    simpl. by rewrite Hitem. }
  split; [done|]. unfold source_check. by rewrite Hreq.
Qed.

Lemma try_body_overridden st cls model method :
  overridden st cls model method ->
  try_body st cls model method = Ret false.
Proof.
  intros (cap_fn & lines & Hcap & Hlines & [Hscan|Hmodel]);
    unfold try_body; rewrite Hcap; simpl; rewrite Hlines; simpl.
  - by rewrite Hscan.
  - destruct (scan_lines lines false); [|done].
    destruct Hmodel as (model_fn & text & Hmodel & Hsrc & Hne).
    unfold getsource at 1. rewrite Hlines. simpl. rewrite Hmodel. simpl.
    rewrite Hsrc. simpl. f_equal. apply String.eqb_neq. congruence.
Qed.

(** X3.  When for every required method the source of the capability's
    version can be retrieved, and the method either is not taken for a stub
    or has on the model a retrievable source with a different text,
    [source_check] returns [True] without a warning. *)
Theorem source_check_all_overridden cls model st :
  Forall (overridden st cls model) (required_methods st cls) ->
  source_check cls model st = (Ret true, st).
Proof.
  intros Hall. unfold source_check.
  rewrite <- (app_nil_r (required_methods st cls)).
  rewrite methods_loop_skip; [done|].
  eapply Forall_impl; [exact Hall|]. apply try_body_overridden.
Qed.

Lemma try_body_true_unoverridden st cls model method :
  try_body st cls model method = Ret true ->
  unoverridden_stub st cls model method.
Proof.
  unfold try_body, unoverridden_stub, getsource.
  destruct (getattr_class st cls method) as [cap_fn|] eqn:Hcap; [|done].
  simpl. destruct (getsourcelines st cap_fn) as [lines|] eqn:Hlines; [|done].
  simpl. destruct (scan_lines lines false) eqn:Hscan; [|done].
  simpl.
  destruct (getattr st model method) as [model_fn|] eqn:Hmodel; [|done].
  simpl.
  destruct (getsourcelines st model_fn) as [lines'|] eqn:Hlines'; [|done].
  simpl. intros Heq. injection Heq as Heq. apply String.eqb_eq in Heq.
  exists cap_fn, lines, model_fn. rewrite Hlines'. simpl. by rewrite Heq.
Qed.

Lemma methods_loop_false cls model methods st st' :
  methods_loop cls model methods true st = (Ret false, st') ->
  st' = st
  /\ exists before method after,
       methods = (before ++ method :: after)%list /\
       Forall (fun m => try_body st cls model m = Ret false) before /\
       try_body st cls model method = Ret true.
Proof.
  induction methods as [|m rest IH]; simpl; [done|].
  destruct (try_body st cls model m) as [[|]|e] eqn:Hm.
  - intros [= <-]. split; [done|]. by exists [], m, rest.
  - intros Hrest. destruct (IH Hrest)
      as (-> & before & method & after & -> & Hbefore & Hmethod).
    split; [done|]. exists (m :: before), method, after.
    split; [done|]. split; [by constructor|done].
  - by destruct e.
Qed.

(** X4.  [source_check] returns [False] only with cause: it has emitted
    no warning, and some required method is taken for a stub and has on the
    model the source text of the stub, every required method before it
    having been passed over. *)
Theorem source_check_false_has_cause cls model st st' :
  source_check cls model st = (Ret false, st') ->
  st' = st
  /\ exists before method after,
       required_methods st cls = (before ++ method :: after)%list /\
       Forall (fun m => try_body st cls model m = Ret false) before /\
       unoverridden_stub st cls model method.
Proof.
  unfold source_check. intros Hrun.
  destruct (methods_loop_false _ _ _ _ _ Hrun)
    as (-> & before & method & after & Hreq & Hbefore & Hmethod).
  split; [done|]. exists before, method, after.
  repeat split; [done|done|]. by apply try_body_true_unoverridden.
Qed.

(** X5.  [source_check] ends in one of three ways: with a verdict and no
    warning; with [True] and the one warning that the source could not be
    retrieved; or with an exception other than [OSError] and no warning.
    So [OSError] never leaves it, and it warns at most once. *)
Theorem source_check_outcomes cls model st :
  (exists b, source_check cls model st = (Ret b, st))
  \/ source_check cls model st
     = (Ret true, emit st [SourceUnavailableWarning])
  \/ (exists e, e <> OSError /\ source_check cls model st = (Raise e, st)).
Proof. apply methods_loop_outcomes. Qed.

Lemma try_body_model_version_raises st cls model method e :
  model_version_raises st cls model method e ->
  try_body st cls model method = Raise e.
Proof.
  intros (cap_fn & lines & Hcap & Hlines & Hscan & Hmodel).
  unfold try_body. rewrite Hcap. simpl. rewrite Hlines. simpl.
  rewrite Hscan. unfold getsource at 1. rewrite Hlines. simpl.
  destruct Hmodel as [->|(model_fn & -> & Hsrc)]; [done|].
  simpl. by rewrite Hsrc.
Qed.

(** X6.  Only [OSError] is caught.  When the methods before [method] have
    been passed over, [method] is taken for a stub, and looking up the
    model's version or retrieving its source raises another exception (the
    model has no such attribute, or the attribute is not code),
    [source_check] raises that exception and emits no warning. *)
Theorem source_check_propagates cls model st before method after e :
  required_methods st cls = (before ++ method :: after)%list ->
  Forall (fun m => try_body st cls model m = Ret false) before ->
  model_version_raises st cls model method e ->
  e <> OSError ->
  source_check cls model st = (Raise e, st).
Proof.
  intros Hreq Hbefore Hraise%try_body_model_version_raises Hne.
  unfold source_check. rewrite Hreq, methods_loop_skip by done.
  simpl. rewrite Hraise. by destruct e.
Qed.

(** ** The stub test and white space *)

Lemma lstrip_all_space ws :
  all_space ws = true -> PyStr.lstrip ws = EmptyString.
Proof.
  induction ws as [|c ws IH]; simpl; [done|].
  intros [Hc Hws]%andb_true_iff. rewrite Hc. auto.
Qed.

Lemma lstrip_padding ws s :
  all_space ws = true -> PyStr.lstrip (ws ++ s) = PyStr.lstrip s.
Proof.
  induction ws as [|c ws IH]; simpl; [done|].
  intros [Hc Hws]%andb_true_iff. rewrite Hc. auto.
Qed.

Lemma rstrip_all_space ws :
  all_space ws = true -> PyStr.rstrip ws = EmptyString.
Proof.
  induction ws as [|c ws IH]; simpl; [done|].
  intros [Hc Hws]%andb_true_iff. by rewrite IH, Hc.
Qed.

Lemma rstrip_padding s ws :
  all_space ws = true -> PyStr.rstrip (s ++ ws) = PyStr.rstrip s.
Proof.
  intros Hws. induction s as [|c s IH]; simpl.
  - by apply rstrip_all_space.
  - by rewrite IH.
Qed.

Lemma strip_trailing_padding s ws :
  all_space ws = true -> PyStr.strip (s ++ ws) = PyStr.strip s.
Proof.
  intros Hws. unfold PyStr.strip. induction s as [|c s IH].
  - simpl. by rewrite lstrip_all_space.
  - change (String c s ++ ws) with (String c (s ++ ws)).
    cbn [PyStr.lstrip]. destruct (PyStr.isspace c); [exact IH|].
    change (String c (s ++ ws)) with (String c s ++ ws).
    by apply rstrip_padding.
Qed.

(** X7.  The stub test does not see the white space around a line: its
    indentation and what follows its last visible character, line feed
    included, can be changed without changing the verdict. *)
Theorem stub_line_ignores_padding ws line ws' :
  all_space ws = true ->
  all_space ws' = true ->
  PyStr.strip (ws ++ line ++ ws') = PyStr.strip line
  /\ stub_line (ws ++ line ++ ws') = stub_line line.
Proof.
  intros Hws Hws'.
  assert (Hstrip : PyStr.strip (ws ++ line ++ ws') = PyStr.strip line).
  { unfold PyStr.strip at 1. rewrite lstrip_padding by done.
    by apply strip_trailing_padding. }
  split; [done|]. unfold stub_line. by rewrite Hstrip.
Qed.

(** ** Further properties of [check] *)

Lemma false_entry_same_store st st' model cls :
  same_store st st' -> false_entry st model cls -> false_entry st' model cls.
Proof.
  intros Hst. unfold false_entry.
  by rewrite (getattr_same_store st st' model _ Hst).
Qed.

Lemma unusable_entry_same_store st st' model cls :
  same_store st st' ->
  unusable_entry st model cls -> unusable_entry st' model cls.
Proof.
  intros Hst. unfold unusable_entry.
  by rewrite (getattr_same_store st st' model _ Hst).
Qed.

Section MoreOnCheck.

Variable call : value -> py value.

Lemma instance_check_false_entry cls model require_extra st :
  false_entry st model cls ->
  instance_check call cls model require_extra st
  = (Ret (VBool (negb require_extra)), st).
Proof.
  unfold instance_check, bind, read, ret.
  intros (d & v & H & Hd & Hv). rewrite H. simpl. rewrite H. simpl.
  rewrite Hd. simpl. rewrite Hv. by destruct require_extra.
Qed.

Lemma instance_check_unusable_entry cls model require_extra st :
  unusable_entry st model cls ->
  instance_check call cls model require_extra st = (Raise TypeError, st).
Proof.
  unfold instance_check, bind, read, ret.
  intros (d & v & H & Hd & Hv & Hstr). rewrite H. simpl. rewrite H. simpl.
  rewrite Hd. simpl. rewrite Hv.
  destruct v; try done. by destruct (Hstr s).
Qed.

Lemma instance_check_run cls model require_extra st :
  instance_check call cls model require_extra st
  = match registered_name st model cls with
    | Ret f_name =>
        if truthy f_name then
          match f_name with
          | VStr name =>
              match getattr st model name with
              | Ret f => call f st
              | Raise e => (Raise e, st)
              end
          | _ => (Raise TypeError, st)
          end
        else (Ret (VBool (negb require_extra)), st)
    | Raise e => (Raise e, st)
    end.
Proof.
  assert (Hname : forall f_name : outcome value,
            match f_name with
            | Ret f_name =>
                (if truthy f_name then
                   let! f :=
                     read (fun st =>
                             match f_name with
                             | VStr name => getattr st model name
                             | _ => Raise TypeError
                             end) in
                   call f
                 else if negb require_extra then ret (VBool true)
                 else ret (VBool false)) st
            | Raise e => (Raise e, st)
            end
            = match f_name with
              | Ret f_name =>
                  if truthy f_name then
                    match f_name with
                    | VStr name =>
                        match getattr st model name with
                        | Ret f => call f st
                        | Raise e => (Raise e, st)
                        end
                    | _ => (Raise TypeError, st)
                    end
                  else (Ret (VBool (negb require_extra)), st)
              | Raise e => (Raise e, st)
              end).
  { intros [f_name|e]; [|done]. unfold bind, read, ret.
    destruct (truthy f_name).
    - destruct f_name as [| | |name| | | | |]; try done;
        by destruct (getattr st model name).
    - by destruct require_extra. }
  rewrite <- Hname. unfold instance_check, registered_name, bind, read, ret.
  destruct (getattr st model "extra_capability_checks") as [checks|e] eqn:H;
    [|done].
  simpl. destruct checks; simpl; rewrite ?H; simpl; done.
Qed.

(** Whether an extra check is required matters only when the instance
    check finds nothing to call. *)
Lemma instance_check_require_extra cls model st :
  instance_check call cls model true st
  = instance_check call cls model false st
  \/ (instance_check call cls model true st = (Ret (VBool false), st)
      /\ instance_check call cls model false st = (Ret (VBool true), st)).
Proof.
  rewrite !instance_check_run.
  destruct (registered_name st model cls) as [f_name|e]; [|by left].
  destruct (truthy f_name); [by left|by right].
Qed.

(** X8.  A true verdict is sound.  When [check] returns a true value,
    that value is [True], the model is an instance of the capability,
    [source_check] returned [True], the instance check returned a true
    value, and [check] has emitted no warning of its own. *)
Theorem check_true_is_sound cls model require_extra st v st' :
  check call cls model require_extra st = (Ret v, st') ->
  truthy v = true ->
  v = VBool true
  /\ isinstance st model cls = true
  /\ exists st0 ic,
       source_check cls model st = (Ret true, st0) /\
       instance_check call cls model require_extra st0 = (Ret ic, st') /\
       truthy ic = true.
Proof.
  unfold check. rewrite check_with_run.
  destruct (isinstance st model cls) eqn:Hcls.
  - destruct (source_check cls model st) as [[b|e] st0] eqn:Hsrc; [|done].
    destruct (instance_check call cls model require_extra st0)
      as [[ic|e] st1] eqn:Hic; [|done].
    intros Heq Hv. injection Heq as <- <-. unfold py_and in *.
    destruct (truthy ic) eqn:Hic'; [|congruence].
    simpl in Hv. subst b. simpl. rewrite emit_nil.
    split; [done|]. split; [done|]. by exists st0, ic.
  - destruct (instance_check call cls model require_extra st)
      as [[ic|e] st1]; [|done].
    intros Heq Hv. injection Heq as <- <-. done.
Qed.

(** X9.  Requiring an extra check can only turn a verdict into [False]:
    [check] with [require_extra=True] leaves the state that [check] with
    [require_extra=False] leaves, and either has the same outcome or
    returns [False]. *)
Theorem check_require_extra_only_rejects cls model st :
  snd (check call cls model true st) = snd (check call cls model false st)
  /\ (fst (check call cls model true st) = fst (check call cls model false st)
      \/ fst (check call cls model true st) = Ret (VBool false)).
Proof.
  unfold check. rewrite !check_with_run.
  destruct (isinstance st model cls).
  - destruct (source_check cls model st) as [[b|e] st0]; [|auto].
    destruct (instance_check_require_extra cls model st0)
      as [->|[-> ->]]; [auto|].
    simpl. split; [done|]. by right.
  - destruct (instance_check_require_extra cls model st)
      as [->|[-> ->]]; [auto|].
    simpl. split; [done|]. by right.
Qed.

(** X11.  An entry that is true but is not a string cannot name a method:
    once the class and source verdicts are in, [check] raises [TypeError],
    and emits no warning of its own even when a verdict is negative. *)
Theorem check_unusable_entry_raises cls model require_extra st cc sc st0 :
  conformance cls model st cc sc st0 ->
  unusable_entry st model cls ->
  check call cls model require_extra st = (Raise TypeError, st0).
Proof.
  intros Hconf Hentry.
  assert (Hic : instance_check call cls model require_extra st0
                = (Raise TypeError, st0)).
  { apply instance_check_unusable_entry.
    eapply unusable_entry_same_store; [|exact Hentry].
    by eapply conformance_same_store. }
  unfold check. rewrite check_with_run.
  destruct Hconf as [Hcls|b st0 Hcls Hsrc]; rewrite Hcls.
  - by rewrite Hic.
  - by rewrite Hsrc, Hic.
Qed.

End MoreOnCheck.

(** X10.  When the registry of the model is [None], has no entry for the
    capability, or has a false one such as the empty name, [check] runs no
    code of the model: its outcome is the same whatever calling a value
    does, and without [require_extra] it is the conjunction of the class
    and source verdicts, with the warning that goes with a negative one. *)
Theorem check_without_extra_check call call' cls model st cc sc st0 :
  no_entry st model cls \/ false_entry st model cls ->
  conformance cls model st cc sc st0 ->
  (forall require_extra,
     check call cls model require_extra st
     = check call' cls model require_extra st)
  /\ check call cls model false st
     = (Ret (VBool (cc && truthy sc)), emit st0 (verdict_warnings cc sc)).
Proof.
  intros Hnone Hconf.
  assert (Hst : same_store st st0) by by eapply conformance_same_store.
  assert (Hic : forall c require_extra,
            instance_check c cls model require_extra st0
            = (Ret (VBool (negb require_extra)), st0)).
  { intros c require_extra. destruct Hnone as [Hno|Hfalse].
    - apply instance_check_no_entry. by eapply no_entry_same_store.
    - apply instance_check_false_entry. by eapply false_entry_same_store. }
  split.
  - intros require_extra.
    rewrite (check_run call cls model require_extra st cc sc st0 _ _
               Hconf (Hic call require_extra)).
    by rewrite (check_run call' cls model require_extra st cc sc st0 _ _
                  Hconf (Hic call' require_extra)).
  - rewrite (check_run call cls model false st cc sc st0 _ _
               Hconf (Hic call false)).
    destruct Hconf as [Hcls|b st0 Hcls Hsrc]; [done|]. by destruct b.
Qed.

(** ** Further properties of [unimplemented] and of the stubs *)

Lemma issubclass_refl st cls : issubclass st cls cls = true.
Proof. unfold issubclass, mro. apply bool_decide_eq_true. set_solver. Qed.

(** X12.  On an instance of [Capability], and as long as [Capability]
    itself does not derive from [Model], the error that [unimplemented]
    raises always names a capability: a class the object is an instance
    of, which derives from [Capability] and not from [Model]. *)
Theorem unimplemented_names_a_capability self message st :
  isinstance st self "Capability" = true ->
  issubclass st "Capability" "Model" = false ->
  exists c,
    unimplemented self message st
    = (Raise (CapabilityNotImplementedError
                (if isinstance st self "Model" then Some self else None)
                (Some c) message),
       st)
    /\ isinstance st self c = true
    /\ issubclass st c "Capability" = true
    /\ issubclass st c "Model" = false.
Proof.
  intros Hcap Hmodel. unfold unimplemented.
  pose proof (filter_head (capability_ancestor st)
                (mro st (obj_class (object_at st self)))) as Hhead.
  change (fun obj => issubclass st obj "Capability"
                     && negb (issubclass st obj "Model"))
    with (capability_ancestor st).
  destruct (List.filter (capability_ancestor st)
              (mro st (obj_class (object_at st self)))) as [|c rest].
  - exfalso. apply bool_decide_eq_true in Hcap.
    rewrite Forall_forall in Hhead. specialize (Hhead _ Hcap).
    unfold capability_ancestor in Hhead.
    by rewrite issubclass_refl, Hmodel in Hhead.
  - destruct Hhead as (before & after & Hmro & Hc & _).
    exists c. split; [done|].
    apply andb_true_iff in Hc as [Hc1 Hc2]. apply negb_true_iff in Hc2.
    repeat split; [|done|done].
    unfold isinstance, issubclass. apply bool_decide_eq_true.
    rewrite Hmro. set_solver.
Qed.

Lemma unimplemented_first_capability self message st :
  exists capability,
    unimplemented self message st
    = (Raise (CapabilityNotImplementedError
                (if isinstance st self "Model" then Some self else None)
                capability message),
       st)
    /\ most_specific_capability st
         (mro st (obj_class (object_at st self))) capability.
Proof.
  unfold unimplemented.
  pose proof (filter_head (capability_ancestor st)
                (mro st (obj_class (object_at st self)))) as Hhead.
  change (fun obj => issubclass st obj "Capability"
                     && negb (issubclass st obj "Model"))
    with (capability_ancestor st).
  destruct (List.filter (capability_ancestor st)
              (mro st (obj_class (object_at st self)))) as [|c rest];
    [by exists None|by exists (Some c)].
Qed.

(** X13.  On an object whose attribute [unimplemented] is the method of
    [Capability], each of the four methods that [ProducesNumber] and
    [Runnable] declare does nothing but raise
    [CapabilityNotImplementedError]: with the empty message, with the
    object when it is a [Model], and with the first capability of the
    object's method resolution order, which need not be the capability
    that declares the method.  The arguments of the [Runnable] methods
    play no part. *)
Theorem declared_methods_raise call self st run_params :
  runs_unimplemented call ->
  getattr st self "unimplemented"
  = Ret (VMethod unimplemented_fn (OnInstance self)) ->
  exists capability,
    most_specific_capability st
      (mro st (obj_class (object_at st self))) capability
    /\ ProducesNumber.produce_number call self st
       = (Raise (CapabilityNotImplementedError
                   (if isinstance st self "Model" then Some self else None)
                   capability EmptyString),
          st)
    /\ Runnable.run call self run_params st
       = ProducesNumber.produce_number call self st
    /\ Runnable.set_run_params call self run_params st
       = ProducesNumber.produce_number call self st
    /\ Runnable.set_default_run_params call self run_params st
       = ProducesNumber.produce_number call self st.
Proof.
  intros Hcall Hattr.
  destruct (unimplemented_first_capability self EmptyString st)
    as (capability & Hraise & Hfirst).
  exists capability. split; [done|]. split; [|done].
  unfold ProducesNumber.produce_number, bind, read.
  rewrite Hattr, Hcall. unfold bind. by rewrite Hraise.
Qed.

(** ** [check] on the two capabilities of the module *)

Lemma source_check_declared st cls model :
  declared_in_module st cls -> source_check cls model st = (Ret true, st).
Proof.
  intros Hdecl.
  destruct (declared_methods_written_through_receiver st cls Hdecl)
    as [_ Hall].
  unfold source_check. rewrite <- (app_nil_r (required_methods st cls)).
  rewrite methods_loop_skip; [done|].
  eapply Forall_impl; [exact Hall|]. intros m Hm.
  by apply written_through_receiver_passes.
Qed.

(** X14.  For [ProducesNumber] and [Runnable] as the module declares
    them, the source verdict is always [True]: on an instance, [check]
    returns what the instance check returns, true or false, and never emits
    the warning about unimplemented methods, whatever the model
    implements. *)
Theorem check_declared_capability call cls model require_extra st ic st1 :
  declared_in_module st cls ->
  isinstance st model cls = true ->
  instance_check call cls model require_extra st = (Ret ic, st1) ->
  check call cls model require_extra st
  = (Ret (if truthy ic then VBool true else ic), st1).
Proof.
  intros Hdecl Hcls Hic. unfold check.
  rewrite check_with_run, Hcls, (source_check_declared st cls model Hdecl), Hic.
  simpl. by rewrite emit_nil.
Qed.

(** ** The further properties on the examples *)

Import MoreExamples.

(** [Capability] itself requires nothing, and accepts an instance of
    [object]. *)
Lemma source_check_nothing_required_witness :
  Forall (fun item => required_item item = false)
    (vars example_state "Capability")
  /\ source_check "Capability" plain_object example_state
     = (Ret true, example_state).
Proof.
  assert (Hnone : Forall (fun item => required_item item = false)
                    (vars example_state "Capability"))
    by (repeat constructor).
  destruct (source_check_nothing_required "Capability" plain_object
              example_state Hnone) as [_ Hsrc].
  by split.
Defined.

(** A [FullModel] overrides both stubs of [TwoStep]. *)
Lemma source_check_all_overridden_witness :
  required_methods example_state "TwoStep" = ["prepare"; "finish"]
  /\ overridden example_state "TwoStep" full_model "prepare"
  /\ overridden example_state "TwoStep" full_model "finish"
  /\ source_check "TwoStep" full_model example_state
     = (Ret true, example_state).
Proof.
  assert (Hprepare : overridden example_state "TwoStep" full_model "prepare").
  { exists (VFunction prepare_stub). eexists. repeat split; try reflexivity.
    right. eexists _, _. repeat split; try reflexivity. discriminate. }
  assert (Hfinish : overridden example_state "TwoStep" full_model "finish").
  { exists (VFunction finish_stub). eexists. repeat split; try reflexivity.
    right. eexists _, _. repeat split; try reflexivity. discriminate. }
  assert (Hall : Forall (overridden example_state "TwoStep" full_model)
                   (required_methods example_state "TwoStep"))
    by (repeat constructor; assumption).
  pose proof (source_check_all_overridden "TwoStep" full_model example_state
                Hall) as Hsrc.
  repeat split; try assumption; reflexivity.
Defined.

(** The [False] that a [LazyModel] gets is caused by [prepare]. *)
Lemma source_check_false_has_cause_witness :
  source_check "TwoStep" lazy_model example_state = (Ret false, example_state)
  /\ exists before method after,
       required_methods example_state "TwoStep"
       = (before ++ method :: after)%list /\
       Forall (fun m => try_body example_state "TwoStep" lazy_model m
                        = Ret false) before /\
       unoverridden_stub example_state "TwoStep" lazy_model method.
Proof.
  assert (Hsrc : source_check "TwoStep" lazy_model example_state
                 = (Ret false, example_state)) by reflexivity.
  destruct (source_check_false_has_cause "TwoStep" lazy_model example_state
              example_state Hsrc) as [_ Hcause].
  by split.
Defined.

(** [prepare] is overridden, and [finish] has been set to a number:
    [inspect] raises [TypeError]. *)
Lemma source_check_propagates_witness :
  required_methods more_state "TwoStep" = ["prepare"; "finish"]
  /\ try_body more_state "TwoStep" shadowing_model "prepare" = Ret false
  /\ model_version_raises more_state "TwoStep" shadowing_model "finish"
       TypeError
  /\ source_check "TwoStep" shadowing_model more_state
     = (Raise TypeError, more_state).
Proof.
  assert (Hreq : required_methods more_state "TwoStep"
                 = (["prepare"] ++ "finish" :: [])%list) by reflexivity.
  assert (Hprepare :
            try_body more_state "TwoStep" shadowing_model "prepare"
            = Ret false) by reflexivity.
  assert (Hbefore : Forall (fun m => try_body more_state "TwoStep"
                                       shadowing_model m = Ret false)
                      ["prepare"])
    by (repeat constructor; exact Hprepare).
  assert (Hfinish : model_version_raises more_state "TwoStep" shadowing_model
                      "finish" TypeError).
  { exists (VFunction finish_stub). eexists. repeat split; try reflexivity.
    right. exists (VInt 5). split; reflexivity. }
  assert (Hne : TypeError <> OSError) by discriminate.
  pose proof (source_check_propagates "TwoStep" shadowing_model more_state
                ["prepare"] "finish" [] TypeError Hreq Hbefore Hfinish Hne)
    as Hsrc.
  repeat split; assumption.
Defined.

(** The last line of a stub of [TwoStep], with and without its
    indentation and line feed. *)
Lemma stub_line_ignores_padding_witness :
  all_space "        " = true
  /\ all_space (String PyStr.lf EmptyString) = true
  /\ stub_line ("        " ++ "raise NotImplementedError()"
                ++ String PyStr.lf EmptyString)
     = stub_line "raise NotImplementedError()"
  /\ stub_line "raise NotImplementedError()" = true.
Proof.
  assert (Hws : all_space "        " = true) by reflexivity.
  assert (Hws' : all_space (String PyStr.lf EmptyString) = true)
    by reflexivity.
  destruct (stub_line_ignores_padding "        " "raise NotImplementedError()"
              (String PyStr.lf EmptyString) Hws Hws') as [_ Hstub].
  repeat split; try assumption; reflexivity.
Defined.

(** [check] accepts a [ConstModel] as producing a number. *)
Lemma check_true_is_sound_witness :
  check example_call "ProducesNumber" const_model false example_state
  = (Ret (VBool true), example_state)
  /\ isinstance example_state const_model "ProducesNumber" = true
  /\ exists st0 ic,
       source_check "ProducesNumber" const_model example_state
       = (Ret true, st0) /\
       instance_check example_call "ProducesNumber" const_model false st0
       = (Ret ic, example_state) /\
       truthy ic = true.
Proof.
  assert (Hcheck :
            check example_call "ProducesNumber" const_model false
              example_state
            = (Ret (VBool true), example_state)) by reflexivity.
  destruct (check_true_is_sound example_call "ProducesNumber" const_model
              false example_state (VBool true) example_state Hcheck eq_refl)
    as (_ & Hcls & Hparts).
  repeat split; assumption.
Defined.

(** A [FullModel] that registers the empty name for [TwoStep]. *)
Lemma check_without_extra_check_witness :
  false_entry more_state unnamed_model "TwoStep"
  /\ conformance "TwoStep" unnamed_model more_state true (VBool true)
       more_state
  /\ check example_call "TwoStep" unnamed_model true more_state
     = check always_true "TwoStep" unnamed_model true more_state
  /\ check example_call "TwoStep" unnamed_model false more_state
     = (Ret (VBool true), emit more_state []).
Proof.
  assert (Hentry : false_entry more_state unnamed_model "TwoStep").
  { exists [("TwoStep", VStr EmptyString)], (VStr EmptyString).
    repeat split; reflexivity. }
  assert (Hconf : conformance "TwoStep" unnamed_model more_state true
                    (VBool true) more_state)
    by (constructor; reflexivity).
  destruct (check_without_extra_check example_call always_true "TwoStep"
              unnamed_model more_state true (VBool true) more_state
              (or_intror Hentry) Hconf) as [Hsame Hverdict].
  split; [exact Hentry|]. split; [exact Hconf|].
  split; [apply Hsame|exact Hverdict].
Defined.

(** A [FullModel] that registers [True] for [TwoStep]. *)
Lemma check_unusable_entry_raises_witness :
  unusable_entry more_state flagged_model "TwoStep"
  /\ conformance "TwoStep" flagged_model more_state true (VBool true)
       more_state
  /\ check example_call "TwoStep" flagged_model false more_state
     = (Raise TypeError, more_state).
Proof.
  assert (Hentry : unusable_entry more_state flagged_model "TwoStep").
  { exists [("TwoStep", VBool true)], (VBool true).
    repeat split; try reflexivity. discriminate. }
  assert (Hconf : conformance "TwoStep" flagged_model more_state true
                    (VBool true) more_state)
    by (constructor; reflexivity).
  pose proof (check_unusable_entry_raises example_call "TwoStep" flagged_model
                false more_state true (VBool true) more_state Hconf Hentry)
    as Hcheck.
  repeat split; assumption.
Defined.

(** A [BothModel] is [Runnable] before it is a [ProducesNumber]. *)
Lemma unimplemented_names_a_capability_witness :
  isinstance more_state both_model "Capability" = true
  /\ issubclass more_state "Capability" "Model" = false
  /\ exists c,
       unimplemented both_model "no number" more_state
       = (Raise (CapabilityNotImplementedError (Some both_model) (Some c)
                   "no number"),
          more_state)
       /\ isinstance more_state both_model c = true
       /\ issubclass more_state c "Capability" = true
       /\ issubclass more_state c "Model" = false.
Proof.
  assert (Hcap : isinstance more_state both_model "Capability" = true)
    by reflexivity.
  assert (Hmodel : issubclass more_state "Capability" "Model" = false)
    by reflexivity.
  pose proof (unimplemented_names_a_capability both_model "no number"
                more_state Hcap Hmodel) as Hraise.
  repeat split; assumption.
Defined.

(** On a [BothModel], [produce_number] blames [Runnable]. *)
Lemma declared_methods_raise_witness :
  runs_unimplemented example_call
  /\ getattr more_state both_model "unimplemented"
     = Ret (VMethod unimplemented_fn (OnInstance both_model))
  /\ ProducesNumber.produce_number example_call both_model more_state
     = (Raise (CapabilityNotImplementedError (Some both_model)
                 (Some "Runnable") EmptyString),
        more_state)
  /\ exists capability,
       most_specific_capability more_state
         (mro more_state (obj_class (object_at more_state both_model)))
         capability
       /\ Runnable.run example_call both_model [] more_state
          = (Raise (CapabilityNotImplementedError (Some both_model)
                      capability EmptyString),
             more_state).
Proof.
  assert (Hcall : runs_unimplemented example_call)
    by (intros self; reflexivity).
  assert (Hattr : getattr more_state both_model "unimplemented"
                  = Ret (VMethod unimplemented_fn (OnInstance both_model)))
    by reflexivity.
  destruct (declared_methods_raise example_call both_model more_state []
              Hcall Hattr) as (capability & Hfirst & Hnum & Hrun & _).
  repeat split; try assumption; try reflexivity.
  exists capability. split; [assumption|]. by rewrite Hrun.
Defined.

(** A [BothModel] implements nothing and passes for [Runnable]. *)
Lemma check_declared_capability_witness :
  declared_in_module more_state "Runnable"
  /\ isinstance more_state both_model "Runnable" = true
  /\ getattr more_state both_model "run"
     = Ret (VMethod (function "Runnable.run" 149 151) (OnInstance both_model))
  /\ check example_call "Runnable" both_model false more_state
     = (Ret (VBool true), more_state).
Proof.
  assert (Hdecl : declared_in_module more_state "Runnable")
    by (right; split; reflexivity).
  assert (Hcls : isinstance more_state both_model "Runnable" = true)
    by reflexivity.
  assert (Hic : instance_check example_call "Runnable" both_model false
                  more_state = (Ret (VBool true), more_state))
    by reflexivity.
  pose proof (check_declared_capability example_call "Runnable" both_model
                false more_state (VBool true) more_state Hdecl Hcls Hic)
    as Hcheck.
  repeat split; try assumption; reflexivity.
Defined.

(** ** The corrections of C5 and C6 on the examples *)

Import RegistryExamples.

(** C5 fails as stated: [finish] has been set to a number on a
    [FullModel] whose registry is [None]; [source_check] finds [finish] a
    stub of [TwoStep], [inspect] raises [TypeError] on the number, and
    [check] with [require_extra=True] raises it instead of returning
    [False]. *)
Lemma check_requires_extra_after_source_check :
  no_entry more_state shadowing_model "TwoStep"
  /\ isinstance more_state shadowing_model "TwoStep" = true
  /\ getattr more_state shadowing_model "finish" = Ret (VInt 5)
  /\ source_check "TwoStep" shadowing_model more_state
     = (Raise TypeError, more_state)
  /\ check example_call "TwoStep" shadowing_model true more_state
     = (Raise TypeError, more_state).
Proof. split; [left|]; evaluated. Qed.

(** C6 fails as stated.  A [FullModel] registers [is_ready], which it
    defines, but [finish] has been set to a number on it: [check] raises
    [TypeError] out of [source_check] and never calls [is_ready].  A model
    that registers a name it does not define makes [check] raise
    [AttributeError]; one that registers a method that raises makes [check]
    raise what the method raises. *)
Lemma check_registered_extra_not_reached :
  (registered registry_state shadowed_ready_model "TwoStep" "is_ready"
   /\ getattr registry_state shadowed_ready_model "is_ready"
      = Ret (VMethod FullModel_is_ready (OnInstance shadowed_ready_model))
   /\ source_check "TwoStep" shadowed_ready_model registry_state
      = (Raise TypeError, registry_state)
   /\ check example_call "TwoStep" shadowed_ready_model true registry_state
      = (Raise TypeError, registry_state))
  /\ (registered example_state misregistered_model "TwoStep" "is_ready"
      /\ getattr example_state misregistered_model "is_ready"
         = Raise AttributeError
      /\ check example_call "TwoStep" misregistered_model true example_state
         = (Raise AttributeError, example_state))
  /\ (registered registry_state raising_check_model "TwoStep" "prepare"
      /\ getattr registry_state raising_check_model "prepare"
         = Ret (VMethod prepare_stub (OnInstance raising_check_model))
      /\ check example_call "TwoStep" raising_check_model true registry_state
         = (Raise (OtherError "NotImplementedError"), registry_state)).
Proof.
  assert (Hreg : forall st model name,
            getattr st model "extra_capability_checks"
            = Ret (VDict [("TwoStep", VStr name)]) ->
            name <> EmptyString ->
            registered st model "TwoStep" name).
  { intros st model name Hattr Hname.
    exists [("TwoStep", VStr name)]. by repeat split. }
  split; [|split]; (split; [apply Hreg; [reflexivity|discriminate]|]);
    evaluated.
Qed.

(** ** Determinism and writes *)

Lemma read_only_read_only_at {A} (m : py A) st : read_only m -> read_only_at m st.
Proof. intros Hm. apply Hm. Qed.

Lemma read_only_at_same_store {A} (m : py A) st st' :
  same_store st st' -> read_only_at m st -> read_only_at m st'.
Proof.
  intros Hst (r & ws & _ & Hother). exists r, ws. split; [by apply Hother|].
  intros st'' Hst''. apply Hother. by eapply same_store_trans.
Qed.

Lemma read_only_at_bind {A B} (m : py A) (k : A -> py B) st :
  read_only_at m st ->
  (forall a, read_only_at (k a) st) ->
  read_only_at (bind m k) st.
Proof.
  intros (r & ws & Hrun & Hother) Hk. unfold read_only_at, bind.
  destruct r as [a|e].
  - destruct (read_only_at_same_store (k a) st (emit st ws)
                (same_store_emit st ws) (Hk a))
      as (r' & ws' & Hrun' & Hother').
    exists r', (ws ++ ws')%list. rewrite Hrun, Hrun', emit_emit.
    split; [done|]. intros st' Hst'. rewrite (Hother st' Hst').
    rewrite <- emit_emit. apply Hother'.
    destruct Hst' as [Hc Hh]. by split.
  - exists (Raise e), ws. rewrite Hrun. split; [done|].
    intros st' Hst'. by rewrite (Hother st' Hst').
Qed.

Lemma read_only_at_repeat {A} (m : py A) st :
  read_only_at m st -> fst (m (snd (m st))) = fst (m st).
Proof.
  intros (r & ws & Hrun & Hother). rewrite Hrun. simpl.
  by rewrite (Hother (emit st ws) (same_store_emit st ws)).
Qed.

Lemma registered_name_same_store st st' model cls :
  same_store st st' ->
  registered_name st model cls = registered_name st' model cls.
Proof.
  intros Hst. unfold registered_name.
  by rewrite (getattr_same_store st st' model _ Hst).
Qed.

(** A true name that the registry yields is a registered name. *)
Lemma registered_name_registered st model cls name :
  registered_name st model cls = Ret (VStr name) ->
  truthy (VStr name) = true ->
  registered st model cls name.
Proof.
  unfold registered_name, registered.
  destruct (getattr st model "extra_capability_checks") as [checks|e];
    [|done].
  simpl. destruct checks as [| | | |d| | | |]; try done. simpl.
  intros Hname Htrue. injection Hname as Hname. exists d.
  split; [done|]. split.
  - by destruct (assoc cls d) as [v|]; simpl in Hname; subst.
  - intros ->. done.
Qed.

Lemma read_only_at_instance_check call cls model require_extra st :
  (forall f, extra_check_of st model cls f -> read_only_at (call f) st) ->
  read_only_at (instance_check call cls model require_extra) st.
Proof.
  intros Hcall.
  assert (Hquiet : forall r : outcome value,
            exists r' ws,
              (r, st) = (r', emit st ws) /\
              forall st', same_store st st' -> (r, st') = (r', emit st' ws)).
  { intros r. exists r, []. rewrite emit_nil. split; [done|].
    intros st' _. by rewrite emit_nil. }
  assert (Hrun : forall st',
            same_store st st' ->
            instance_check call cls model require_extra st'
            = match registered_name st model cls with
              | Ret f_name =>
                  if truthy f_name then
                    match f_name with
                    | VStr name =>
                        match getattr st model name with
                        | Ret f => call f st'
                        | Raise e => (Raise e, st')
                        end
                    | _ => (Raise TypeError, st')
                    end
                  else (Ret (VBool (negb require_extra)), st')
              | Raise e => (Raise e, st')
              end).
  { intros st' Hst'. rewrite instance_check_run.
    rewrite <- (registered_name_same_store st st') by done.
    destruct (registered_name st model cls) as [f_name|e]; [|done].
    destruct (truthy f_name); [|done].
    destruct f_name; try done.
    by rewrite <- (getattr_same_store st st'). }
  unfold read_only_at. rewrite (Hrun st (same_store_refl st)).
  destruct (registered_name st model cls) as [f_name|e] eqn:Hname.
  - destruct (truthy f_name) eqn:Htrue.
    + destruct f_name as [| | |name| | | | |];
        try (destruct (Hquiet (Raise TypeError)) as (r & ws & Hst & Hother);
             exists r, ws; split; [done|];
             intros st' Hst'; rewrite (Hrun st' Hst'); by apply Hother).
      destruct (getattr st model name) as [f|e] eqn:Hf.
      * assert (Hextra : extra_check_of st model cls f).
        { exists name. split; [|done].
          by apply registered_name_registered. }
        destruct (Hcall f Hextra) as (r & ws & Hst & Hother).
        exists r, ws. split; [done|].
        intros st' Hst'. rewrite (Hrun st' Hst'). by apply Hother.
      * destruct (Hquiet (Raise e)) as (r & ws & Hst & Hother).
        exists r, ws. split; [done|].
        intros st' Hst'. rewrite (Hrun st' Hst'). by apply Hother.
    + destruct (Hquiet (Ret (VBool (negb require_extra))))
        as (r & ws & Hst & Hother).
      exists r, ws. split; [done|].
      intros st' Hst'. rewrite (Hrun st' Hst'). by apply Hother.
  - destruct (Hquiet (Raise e)) as (r & ws & Hst & Hother).
    exists r, ws. split; [done|].
    intros st' Hst'. rewrite (Hrun st' Hst'). by apply Hother.
Qed.

(** C9, as amended.  [source_check] is a function of the classes and
    instances: its result and the warnings it emits do not depend on
    anything else, it writes nothing but those warnings, and a second run
    gives the result of the first.  The same holds of [check] in a state
    where calling the extra check that the model registers for the
    capability, if it registers one, is such a computation; nothing is
    asked of any other code of the model. *)
Theorem checks_deterministic call cls model require_extra st :
  (forall f, extra_check_of st model cls f -> read_only_at (call f) st) ->
  read_only (source_check cls model)
  /\ repeatable (source_check cls model)
  /\ read_only_at (check call cls model require_extra) st
  /\ fst (check call cls model require_extra
            (snd (check call cls model require_extra st)))
     = fst (check call cls model require_extra st).
Proof.
  intros Hcall.
  pose proof (source_check_read_only cls model) as Hsrc.
  assert (Hcheck : read_only_at (check call cls model require_extra) st).
  { unfold check, check_with.
    apply read_only_at_bind.
    { apply read_only_read_only_at, read_only_read. intros s s' Hs.
      by rewrite (isinstance_same_store s s'). }
    intros class_capable. apply read_only_at_bind.
    { apply read_only_read_only_at.
      destruct class_capable; [|apply read_only_ret].
      apply read_only_bind; [exact Hsrc|]. intros. apply read_only_ret. }
    intros source_capable. apply read_only_at_bind.
    { by apply read_only_at_instance_check. }
    intros instance_capable. apply read_only_read_only_at.
    apply read_only_bind; [|intros; apply read_only_ret].
    destruct (negb class_capable); [apply read_only_warn|].
    destruct (negb (truthy source_capable));
      [apply read_only_warn|apply read_only_ret]. }
  repeat split; auto using read_only_repeatable, read_only_at_repeat.
Qed.

(** A [FullModel] registers [is_ready] for [TwoStep]; [check] calls it,
    and it only returns [True], while other methods of the model write. *)
Lemma checks_deterministic_witness :
  extra_check_of example_state checked_model "TwoStep"
    (VMethod FullModel_is_ready (OnInstance checked_model))
  /\ check example_call "TwoStep" checked_model true example_state
     = (Ret (VBool true), example_state)
  /\ read_only_at (check example_call "TwoStep" checked_model true)
       example_state
  /\ fst (check example_call "TwoStep" checked_model true
            (snd (check example_call "TwoStep" checked_model true
                    example_state)))
     = Ret (VBool true).
Proof.
  assert (Hextra : extra_check_of example_state checked_model "TwoStep"
                     (VMethod FullModel_is_ready (OnInstance checked_model))).
  { exists "is_ready". split; [|reflexivity].
    exists [("TwoStep", VStr "is_ready")].
    repeat split; try reflexivity. discriminate. }
  assert (Hcall : forall f,
            extra_check_of example_state checked_model "TwoStep" f ->
            read_only_at (example_call f) example_state).
  { intros f (name & (d & Hd & Hname & _) & Hf).
    assert (Hregistry :
              getattr example_state checked_model "extra_capability_checks"
              = Ret (VDict [("TwoStep", VStr "is_ready")])) by reflexivity.
    rewrite Hregistry in Hd. injection Hd as <-.
    injection Hname as <-.
    assert (Hready :
              getattr example_state checked_model "is_ready"
              = Ret (VMethod FullModel_is_ready (OnInstance checked_model)))
      by reflexivity.
    rewrite Hready in Hf. injection Hf as <-.
    apply read_only_read_only_at.
    exact (read_only_ret (VBool true)). }
  destruct (checks_deterministic example_call "TwoStep" checked_model true
              example_state Hcall) as (_ & _ & Hat & Hrepeat).
  split; [exact Hextra|]. split; [reflexivity|]. split; [exact Hat|].
  rewrite Hrepeat. reflexivity.
Defined.
